(** * Simulated sensors module (flight/Modules/Sensors/simulated/sensors.c)

    The module has three entry points: [SensorsInitialize], [SensorsStart]
    and the task body [SensorsTask], whose main loop is [while (1)].  All
    three only talk to the rest of the firmware through calls (UAVObject
    accessors, FreeRTOS, PiOS), so they are embedded as interaction trees
    over the type [sensorsE] of those calls; the loop is [ITree.forever].
    A handler gives the calls their meaning on a [World] (the shared object
    store, the tick counter and the log of calls made), and [run] executes
    a program for a bounded number of steps. *)

From Stdlib Require Import ZArith String.
From ITree Require Import ITree.
From stdpp Require Import base list vector gmap.

(** ** What the absent headers declare *)

(** The fields of the UAVObject structs are numbers; the C code assigns
    integer literals to them and, for the gyros, uses [+=].  The generated
    headers that fix the field types are not part of this file, so the
    field type is a parameter with exactly these two operations. *)
Class Scalar (F : Type) := {
  lit : Z → F;
  add : F → F → F;
}.

(** Sums of small integer constants are computed exactly (true of the
    integer types and of binary floating point alike). *)
Definition exact_small (F : Type) `{Scalar F} : Prop :=
  ∀ a b : Z, (Z.abs a ≤ 65535)%Z → (Z.abs b ≤ 65535)%Z →
    add (lit a) (lit b) = lit (a + b)%Z.

(** Everything sensors.c takes from headers: the field type, the fields of
    the read-modify-write objects that this file never names, and the two
    FreeRTOS macros it uses. *)
Class Headers := {
  F : Type;
  F_scalar :: Scalar F;
  HomeLocationOther : Type;
  BaroAltitudeOther : Type;
  GPSPositionOther : Type;
  portTICK_RATE_MS : Z;
  tskIDLE_PRIORITY : Z;
}.

(** Private constants of sensors.c. *)
Definition STACK_SIZE_BYTES : Z := 1540%Z.
Definition TASK_PRIORITY `{Headers} : Z := (tskIDLE_PRIORITY + 3)%Z.
Definition SENSOR_PERIOD : Z := 2%Z.

(** ** The UAVObject structs, one module per object header *)

(** The structs have the fields that sensors.c assigns or reads.  The
    three that the task declares without a Get ("Skip get as we set all the
    fields") have no other field; the three that it reads, changes and
    writes back have an [other] component, which stands for the fields
    their headers may declare and sensors.c never mentions. *)

Module Accels.
Section data.
Context `{Headers}.
Record Data := { x : F; y : F; z : F; temperature : F }.
End data.
End Accels.

Module Gyros.
Section data.
Context `{Headers}.
Record Data := { x : F; y : F; z : F }.
Definition set_x (v : F) (d : Data) : Data := {| x := v; y := y d; z := z d |}.
Definition set_y (v : F) (d : Data) : Data := {| x := x d; y := v; z := z d |}.
Definition set_z (v : F) (d : Data) : Data := {| x := x d; y := y d; z := v |}.
End data.
End Gyros.

Module GyrosBias.
Section data.
Context `{Headers}.
Record Data := { x : F; y : F; z : F }.
End data.
End GyrosBias.

Module Magnetometer.
Section data.
Context `{Headers}.
Record Data := { x : F; y : F; z : F }.
End data.
End Magnetometer.

Module BaroAltitude.
Section data.
Context `{Headers}.
Record Data := { Altitude : F; other : BaroAltitudeOther }.
Definition set_Altitude (v : F) (d : Data) : Data :=
  {| Altitude := v; other := other d |}.
End data.
End BaroAltitude.

Module GPSPosition.
Section data.
Context `{Headers}.
Record Data :=
  { Latitude : F; Longitude : F; Altitude : F; other : GPSPositionOther }.
Definition set_Latitude (v : F) (d : Data) : Data :=
  {| Latitude := v; Longitude := Longitude d; Altitude := Altitude d;
     other := other d |}.
Definition set_Longitude (v : F) (d : Data) : Data :=
  {| Latitude := Latitude d; Longitude := v; Altitude := Altitude d;
     other := other d |}.
Definition set_Altitude (v : F) (d : Data) : Data :=
  {| Latitude := Latitude d; Longitude := Longitude d; Altitude := v;
     other := other d |}.
End data.
End GPSPosition.

Module HomeLocation.
(** Modelled from the spec: the validity flag of Home Location, which is
    declared in homelocation.h; sensors.c only ever stores
    HOMELOCATION_SET_TRUE. *)
Variant SetOptions := HOMELOCATION_SET_FALSE | HOMELOCATION_SET_TRUE.

Section data.
Context `{Headers}.
(** Modelled from the spec: [Be] is the local magnetic field vector, of
    three components; sensors.c assigns Be[0], Be[1] and Be[2].  The field
    the C struct calls [Set] is [Set_] here ([Set] is a reserved word). *)
Record Data := {
  Latitude : F; Longitude : F; Altitude : F;
  Be : vec F 3;
  Set_ : SetOptions;
  other : HomeLocationOther;
}.
Definition set_Latitude (v : F) (d : Data) : Data :=
  {| Latitude := v; Longitude := Longitude d; Altitude := Altitude d;
     Be := Be d; Set_ := Set_ d; other := other d |}.
Definition set_Longitude (v : F) (d : Data) : Data :=
  {| Latitude := Latitude d; Longitude := v; Altitude := Altitude d;
     Be := Be d; Set_ := Set_ d; other := other d |}.
Definition set_Altitude (v : F) (d : Data) : Data :=
  {| Latitude := Latitude d; Longitude := Longitude d; Altitude := v;
     Be := Be d; Set_ := Set_ d; other := other d |}.
Definition set_Be (i : fin 3) (v : F) (d : Data) : Data :=
  {| Latitude := Latitude d; Longitude := Longitude d; Altitude := Altitude d;
     Be := vinsert i v (Be d); Set_ := Set_ d; other := other d |}.
Definition set_Set (v : SetOptions) (d : Data) : Data :=
  {| Latitude := Latitude d; Longitude := Longitude d; Altitude := Altitude d;
     Be := Be d; Set_ := v; other := other d |}.
End data.
End HomeLocation.

Abbreviation AccelsData := Accels.Data.
Abbreviation GyrosData := Gyros.Data.
Abbreviation GyrosBiasData := GyrosBias.Data.
Abbreviation MagnetometerData := Magnetometer.Data.
Abbreviation BaroAltitudeData := BaroAltitude.Data.
Abbreviation GPSPositionData := GPSPosition.Data.
Abbreviation HomeLocationData := HomeLocation.Data.
Abbreviation HOMELOCATION_SET_TRUE := HomeLocation.HOMELOCATION_SET_TRUE.

(** ** The calls the module makes *)

(** The objects of the store that sensors.c names, by handle. *)
Variant UAVObjHandle :=
  | AccelsHandle | BaroAltitudeHandle | GyrosHandle | GyrosBiasHandle
  | GPSPositionHandle | HomeLocationHandle | MagnetometerHandle
  | RevoCalibrationHandle.

Global Instance UAVObjHandle_eq_dec : EqDecision UAVObjHandle.
Proof. solve_decision. Defined.

Global Instance UAVObjHandle_countable : Countable UAVObjHandle.
Proof.
  refine (inj_countable'
    (λ o, match o with
          | AccelsHandle => 0 | BaroAltitudeHandle => 1 | GyrosHandle => 2
          | GyrosBiasHandle => 3 | GPSPositionHandle => 4
          | HomeLocationHandle => 5 | MagnetometerHandle => 6
          | RevoCalibrationHandle => 7
          end%nat)
    (λ n, match n with
          | 0 => AccelsHandle | 1 => BaroAltitudeHandle | 2 => GyrosHandle
          | 3 => GyrosBiasHandle | 4 => GPSPositionHandle
          | 5 => HomeLocationHandle | 6 => MagnetometerHandle
          | _ => RevoCalibrationHandle
          end%nat) _).
  by intros [].
Defined.

Variant TaskInfoRunning := TASKINFO_RUNNING_SENSORS.
Variant WdgFlag := PIOS_WDG_SENSORS.
Variant SystemAlarm := SYSTEMALARMS_ALARM_SENSORS.

(** A task handle is an address; 0 is NULL, the value of the static
    [sensorsTaskHandle] before any task was created. *)
Definition xTaskHandle := Z.

(** FreeRTOS result codes of xTaskCreate. *)
Definition pdPASS : Z := 1%Z.
Definition errCOULD_NOT_ALLOCATE_REQUIRED_MEMORY : Z := (-1)%Z.

(** One constructor per external function called in sensors.c, indexed by
    what the call hands back.  Results that the C code discards and that
    carry no data are [unit]; [UAVObjInitialize] and [xTaskCreate] keep
    their result code although the code discards it too, because whether
    it is looked at is what the start-up contract is about.  [xTaskCreate]
    also hands back the content of [sensorsTaskHandle] after the call (the
    handle is written through a pointer). *)
Variant sensorsE `{Headers} : Type → Type :=
  | UAVObjInitialize (obj : UAVObjHandle) : sensorsE Z
  | xTaskCreate (pcName : string) (usStackDepth uxPriority : Z)
      : sensorsE (Z * xTaskHandle)
  | TaskMonitorAdd (task : TaskInfoRunning) (handle : xTaskHandle) : sensorsE unit
  | PIOS_WDG_RegisterFlag (flag : WdgFlag) : sensorsE unit
  | PIOS_WDG_UpdateFlag (flag : WdgFlag) : sensorsE unit
  | AlarmsClear (alarm : SystemAlarm) : sensorsE unit
  | xTaskGetTickCount : sensorsE Z
  | vTaskDelay (xTicksToDelay : Z) : sensorsE unit
  | HomeLocationGet : sensorsE HomeLocationData
  | HomeLocationSet (d : HomeLocationData) : sensorsE unit
  | AccelsSet (d : AccelsData) : sensorsE unit
  | GyrosBiasGet : sensorsE GyrosBiasData
  | GyrosSet (d : GyrosData) : sensorsE unit
  | BaroAltitudeGet : sensorsE BaroAltitudeData
  | BaroAltitudeSet (d : BaroAltitudeData) : sensorsE unit
  | GPSPositionGet : sensorsE GPSPositionData
  | GPSPositionSet (d : GPSPositionData) : sensorsE unit
  | MagnetometerSet (d : MagnetometerData) : sensorsE unit.

(** Sequencing of calls, written with stdpp's [x ← c; k] and [c;; k]. *)
Global Instance itree_ret {E} : MRet (itree E) := λ _ x, Ret x.
Global Instance itree_bind {E} : MBind (itree E) := λ _ _ k t, ITree.bind t k.

Section program.
Context `{Headers}.

Definition call {T} (e : sensorsE T) : itree sensorsE T := ITree.trigger e.

Definition AccelsInitialize := call (UAVObjInitialize AccelsHandle).
Definition BaroAltitudeInitialize := call (UAVObjInitialize BaroAltitudeHandle).
Definition GyrosInitialize := call (UAVObjInitialize GyrosHandle).
Definition GyrosBiasInitialize := call (UAVObjInitialize GyrosBiasHandle).
Definition MagnetometerInitialize := call (UAVObjInitialize MagnetometerHandle).
Definition RevoCalibrationInitialize := call (UAVObjInitialize RevoCalibrationHandle).

(** [int32_t SensorsInitialize(void)] *)
Definition SensorsInitialize : itree sensorsE Z :=
  AccelsInitialize;;
  BaroAltitudeInitialize;;
  GyrosInitialize;;
  GyrosBiasInitialize;;
  MagnetometerInitialize;;
  RevoCalibrationInitialize;;
  mret 0%Z.

(** [int32_t SensorsStart(void)] *)
Definition SensorsStart : itree sensorsE Z :=
  '(_, sensorsTaskHandle) ←
    call (xTaskCreate "Sensors" (STACK_SIZE_BYTES `quot` 4)%Z TASK_PRIORITY);
  call (TaskMonitorAdd TASKINFO_RUNNING_SENSORS sensorsTaskHandle);;
  call (PIOS_WDG_RegisterFlag PIOS_WDG_SENSORS);;
  mret 0%Z.

(** The part of [SensorsTask] before the main loop; it hands on
    [lastSysTime]. *)
Definition SensorsTask_startup : itree sensorsE Z :=
  call (AlarmsClear SYSTEMALARMS_ALARM_SENSORS);;
  homeLocation ← call HomeLocationGet;
  let homeLocation := HomeLocation.set_Latitude (lit 0) homeLocation in
  let homeLocation := HomeLocation.set_Longitude (lit 0) homeLocation in
  let homeLocation := HomeLocation.set_Altitude (lit 0) homeLocation in
  let homeLocation := HomeLocation.set_Be 0%fin (lit 26000) homeLocation in
  let homeLocation := HomeLocation.set_Be 1%fin (lit 400) homeLocation in
  let homeLocation := HomeLocation.set_Be 2%fin (lit 40000) homeLocation in
  let homeLocation := HomeLocation.set_Set HOMELOCATION_SET_TRUE homeLocation in
  call (HomeLocationSet homeLocation);;
  call xTaskGetTickCount.

(** The body of the main loop.  [accelsData], [gyrosData] and [mag] are
    declared without a Get ("Skip get as we set all the fields"). *)
Definition SensorsTask_cycle : itree sensorsE unit :=
  let accelsData :=
    {| Accels.x := lit 0; Accels.y := lit (-1); Accels.z := lit (-8);
       Accels.temperature := lit 0 |} in
  call (AccelsSet accelsData);;
  let gyrosData := {| Gyros.x := lit 2; Gyros.y := lit 0; Gyros.z := lit 1 |} in
  gyrosBias ← call GyrosBiasGet;
  let gyrosData :=
    Gyros.set_x (add (Gyros.x gyrosData) (GyrosBias.x gyrosBias)) gyrosData in
  let gyrosData :=
    Gyros.set_y (add (Gyros.y gyrosData) (GyrosBias.y gyrosBias)) gyrosData in
  let gyrosData :=
    Gyros.set_z (add (Gyros.z gyrosData) (GyrosBias.z gyrosBias)) gyrosData in
  call (GyrosSet gyrosData);;
  baroAltitude ← call BaroAltitudeGet;
  let baroAltitude := BaroAltitude.set_Altitude (lit 1) baroAltitude in
  call (BaroAltitudeSet baroAltitude);;
  gpsPosition ← call GPSPositionGet;
  let gpsPosition := GPSPosition.set_Latitude (lit 0) gpsPosition in
  let gpsPosition := GPSPosition.set_Longitude (lit 0) gpsPosition in
  let gpsPosition := GPSPosition.set_Altitude (lit 0) gpsPosition in
  call (GPSPositionSet gpsPosition);;
  let mag :=
    {| Magnetometer.x := lit 400; Magnetometer.y := lit 0;
       Magnetometer.z := lit 800 |} in
  call (MagnetometerSet mag);;
  call (PIOS_WDG_UpdateFlag PIOS_WDG_SENSORS);;
  call (vTaskDelay (20 `quot` portTICK_RATE_MS)%Z).

(** [static void SensorsTask(void *parameters)]: never returns. *)
Definition SensorsTask : itree sensorsE void :=
  lastSysTime ← SensorsTask_startup;
  ITree.forever SensorsTask_cycle.
End program.

(** ** The world the calls act on *)

Section semantics.
Context `{Headers}.

(** The shared state store: one instance of each object the task reads or
    writes. *)
Record UAVObjects := {
  obj_Accels : AccelsData;
  obj_Gyros : GyrosData;
  obj_GyrosBias : GyrosBiasData;
  obj_BaroAltitude : BaroAltitudeData;
  obj_GPSPosition : GPSPositionData;
  obj_HomeLocation : HomeLocationData;
  obj_Magnetometer : MagnetometerData;
}.

Definition put_Accels (d : AccelsData) (o : UAVObjects) : UAVObjects :=
  {| obj_Accels := d; obj_Gyros := obj_Gyros o; obj_GyrosBias := obj_GyrosBias o;
     obj_BaroAltitude := obj_BaroAltitude o; obj_GPSPosition := obj_GPSPosition o;
     obj_HomeLocation := obj_HomeLocation o; obj_Magnetometer := obj_Magnetometer o |}.
Definition put_Gyros (d : GyrosData) (o : UAVObjects) : UAVObjects :=
  {| obj_Accels := obj_Accels o; obj_Gyros := d; obj_GyrosBias := obj_GyrosBias o;
     obj_BaroAltitude := obj_BaroAltitude o; obj_GPSPosition := obj_GPSPosition o;
     obj_HomeLocation := obj_HomeLocation o; obj_Magnetometer := obj_Magnetometer o |}.
Definition put_BaroAltitude (d : BaroAltitudeData) (o : UAVObjects) : UAVObjects :=
  {| obj_Accels := obj_Accels o; obj_Gyros := obj_Gyros o; obj_GyrosBias := obj_GyrosBias o;
     obj_BaroAltitude := d; obj_GPSPosition := obj_GPSPosition o;
     obj_HomeLocation := obj_HomeLocation o; obj_Magnetometer := obj_Magnetometer o |}.
Definition put_GPSPosition (d : GPSPositionData) (o : UAVObjects) : UAVObjects :=
  {| obj_Accels := obj_Accels o; obj_Gyros := obj_Gyros o; obj_GyrosBias := obj_GyrosBias o;
     obj_BaroAltitude := obj_BaroAltitude o; obj_GPSPosition := d;
     obj_HomeLocation := obj_HomeLocation o; obj_Magnetometer := obj_Magnetometer o |}.
Definition put_HomeLocation (d : HomeLocationData) (o : UAVObjects) : UAVObjects :=
  {| obj_Accels := obj_Accels o; obj_Gyros := obj_Gyros o; obj_GyrosBias := obj_GyrosBias o;
     obj_BaroAltitude := obj_BaroAltitude o; obj_GPSPosition := obj_GPSPosition o;
     obj_HomeLocation := d; obj_Magnetometer := obj_Magnetometer o |}.
Definition put_Magnetometer (d : MagnetometerData) (o : UAVObjects) : UAVObjects :=
  {| obj_Accels := obj_Accels o; obj_Gyros := obj_Gyros o; obj_GyrosBias := obj_GyrosBias o;
     obj_BaroAltitude := obj_BaroAltitude o; obj_GPSPosition := obj_GPSPosition o;
     obj_HomeLocation := obj_HomeLocation o; obj_Magnetometer := d |}.

(** A call that was made, with what it handed back. *)
Inductive Call : Type :=
  | Called {T : Type} (e : sensorsE T) (answer : T).

Record World := {
  registered : gset UAVObjHandle;  (* objects registered with the store *)
  objs : UAVObjects;               (* contents of the store *)
  now : Z;                         (* the scheduler's tick count *)
  log : list Call;                 (* calls made so far, oldest first *)
}.

Definition with_registered (r : gset UAVObjHandle) (w : World) : World :=
  {| registered := r; objs := objs w; now := now w; log := log w |}.
Definition with_objs (o : UAVObjects) (w : World) : World :=
  {| registered := registered w; objs := o; now := now w; log := log w |}.
Definition with_now (t : Z) (w : World) : World :=
  {| registered := registered w; objs := objs w; now := t; log := log w |}.
Definition with_log (l : list Call) (w : World) : World :=
  {| registered := registered w; objs := objs w; now := now w; log := l |}.

(** What the module does not control.  Calls are numbered in the order
    they are made, starting from 0 (the number of a call is the length of
    the log when it is made). *)
Record Env := {
  (* what the other tasks wrote to the store since the previous call *)
  preempt : nat → UAVObjects → UAVObjects;
  (* ticks that went by since the previous call returned *)
  elapsed : nat → nat;
  (* result code of the store's registration of an object *)
  init_result : UAVObjHandle → Z;
  (* result code of xTaskCreate and the task handle it leaves behind *)
  task_create : Z * xTaskHandle;
  (* the scheduler's rule for vTaskDelay: from the tick of the call and
     the ticks asked for, the tick at which the task runs again *)
  vTaskDelay_wake : Z → Z → Z;
}.

(** The world as the next call finds it. *)
Definition arrive (env : Env) (w : World) : World :=
  let i := length (log w) in
  with_now (now w + Z.of_nat (elapsed env i))%Z
    (with_objs (preempt env i (objs w)) w).

(** Modelled from the spec: the collaborators of section 6.  The store
    registers an object (idempotently) when its initialiser succeeds, a Get
    hands back the whole record as it is at the instant of the call and a
    Set replaces the whole record; the tick count is the scheduler's clock.
    The task monitor, the watchdog and the alarms are only logged. *)
Definition perform (env : Env) {T : Type} (e : sensorsE T) (w : World) : T * World :=
  match e in sensorsE T return T * World with
  | UAVObjInitialize obj =>
      let r := init_result env obj in
      (r, if decide (r = 0%Z) then with_registered ({[obj]} ∪ registered w) w else w)
  | xTaskCreate _ _ _ => (task_create env, w)
  | TaskMonitorAdd _ _ => (tt, w)
  | PIOS_WDG_RegisterFlag _ => (tt, w)
  | PIOS_WDG_UpdateFlag _ => (tt, w)
  | AlarmsClear _ => (tt, w)
  | xTaskGetTickCount => (now w, w)
  | vTaskDelay n => (tt, with_now (vTaskDelay_wake env (now w) n) w)
  | HomeLocationGet => (obj_HomeLocation (objs w), w)
  | HomeLocationSet d => (tt, with_objs (put_HomeLocation d (objs w)) w)
  | AccelsSet d => (tt, with_objs (put_Accels d (objs w)) w)
  | GyrosBiasGet => (obj_GyrosBias (objs w), w)
  | GyrosSet d => (tt, with_objs (put_Gyros d (objs w)) w)
  | BaroAltitudeGet => (obj_BaroAltitude (objs w), w)
  | BaroAltitudeSet d => (tt, with_objs (put_BaroAltitude d (objs w)) w)
  | GPSPositionGet => (obj_GPSPosition (objs w), w)
  | GPSPositionSet d => (tt, with_objs (put_GPSPosition d (objs w)) w)
  | MagnetometerSet d => (tt, with_objs (put_Magnetometer d (objs w)) w)
  end.

(** One call: the world moves on to the instant of the call, the call is
    performed, and it is appended to the log. *)
Definition handle (env : Env) {T : Type} (e : sensorsE T) (w : World) : T * World :=
  let r := perform env e (arrive env w) in
  (r.1, with_log (log r.2 ++ [Called e r.1]) r.2).

(** [run env n t w] executes at most [n] steps of [t] from [w]: a step is a
    call or the back edge of a loop.  The result is [Some r] when [t]
    returned [r] within these steps. *)
Fixpoint run {R : Type} (env : Env) (fuel : nat) (t : itree sensorsE R) (w : World)
    : World * option R :=
  match observe t, fuel with
  | RetF r, _ => (w, Some r)
  | _, O => (w, None)
  | TauF t', S fuel' => run env fuel' t' w
  | VisF e k, S fuel' =>
      let r := handle env e w in run env fuel' (k r.1) r.2
  end.

(** The task [SensorsTask] makes 4 calls before the loop; one cycle of the
    loop is 10 calls and the back edge.  [at_cycle env w k j] is the world
    when the task, started in [w], has made [j] calls of its cycle number
    [k] (counted from 0). *)
Definition at_cycle (env : Env) (w : World) (k j : nat) : World :=
  (run env (4 + 11 * k + j) SensorsTask w).1.

(** The calls made between two worlds of one execution. *)
Definition calls_since (w w' : World) : list Call :=
  drop (length (log w)) (log w').
End semantics.

(** ** Reading the log *)

Section observations.
Context `{Headers}.

(** The record a call publishes, per object. *)
Definition written_HomeLocation (c : Call) : option HomeLocationData :=
  match c with Called (HomeLocationSet d) _ => Some d | _ => None end.
Definition written_Accels (c : Call) : option AccelsData :=
  match c with Called (AccelsSet d) _ => Some d | _ => None end.
Definition written_Gyros (c : Call) : option GyrosData :=
  match c with Called (GyrosSet d) _ => Some d | _ => None end.
Definition written_BaroAltitude (c : Call) : option BaroAltitudeData :=
  match c with Called (BaroAltitudeSet d) _ => Some d | _ => None end.
Definition written_GPSPosition (c : Call) : option GPSPositionData :=
  match c with Called (GPSPositionSet d) _ => Some d | _ => None end.
Definition written_Magnetometer (c : Call) : option MagnetometerData :=
  match c with Called (MagnetometerSet d) _ => Some d | _ => None end.

(** The name of the function a call went to. *)
Definition call_name (c : Call) : string :=
  match c with
  | Called e _ =>
      match e with
      | UAVObjInitialize _ => "UAVObjInitialize"
      | xTaskCreate _ _ _ => "xTaskCreate"
      | TaskMonitorAdd _ _ => "TaskMonitorAdd"
      | PIOS_WDG_RegisterFlag _ => "PIOS_WDG_RegisterFlag"
      | PIOS_WDG_UpdateFlag _ => "PIOS_WDG_UpdateFlag"
      | AlarmsClear _ => "AlarmsClear"
      | xTaskGetTickCount => "xTaskGetTickCount"
      | vTaskDelay _ => "vTaskDelay"
      | HomeLocationGet => "HomeLocationGet"
      | HomeLocationSet _ => "HomeLocationSet"
      | AccelsSet _ => "AccelsSet"
      | GyrosBiasGet => "GyrosBiasGet"
      | GyrosSet _ => "GyrosSet"
      | BaroAltitudeGet => "BaroAltitudeGet"
      | BaroAltitudeSet _ => "BaroAltitudeSet"
      | GPSPositionGet => "GPSPositionGet"
      | GPSPositionSet _ => "GPSPositionSet"
      | MagnetometerSet _ => "MagnetometerSet"
      end
  end.

(** The watchdog flag a call refreshes, and the ticks a call asks the
    scheduler to suspend the task for. *)
Definition refreshed_flag (c : Call) : option WdgFlag :=
  match c with Called (PIOS_WDG_UpdateFlag flag) _ => Some flag | _ => None end.
Definition delay_asked (c : Call) : option Z :=
  match c with Called (vTaskDelay n) _ => Some n | _ => None end.

(** The scheduler makes a task that called vTaskDelay ready again the
    given number of ticks after the call (FreeRTOS: the delay is relative
    to the time at which vTaskDelay is called). *)
Definition relative_delay (env : Env) : Prop :=
  ∀ t n : Z, vTaskDelay_wake env t n = (t + n)%Z.

(** Ticks that go by in a cycle of the loop started in [w] up to the
    instant of its tenth call, the suspension. *)
Definition work (env : Env) (w : World) : nat :=
  sum_list (map (λ i, elapsed env (length (log w) + i)) (seq 0 10)).

(** No other task writes Home Location. *)
Definition leaves_HomeLocation (env : Env) : Prop :=
  ∀ i o, obj_HomeLocation (preempt env i o) = obj_HomeLocation o.

(** The objects whose registration a call asked for. *)
Definition registration (c : Call) : option UAVObjHandle :=
  match c with Called (UAVObjInitialize obj) _ => Some obj | _ => None end.

(** The content of the store as the next call made from [w] finds it. *)
Definition store_at_call (env : Env) (w : World) : UAVObjects :=
  objs (arrive env w).

(** The tick at which the next call made from [w] is made. *)
Definition tick_at_call (env : Env) (w : World) : Z := now (arrive env w).

(** The worlds inside one cycle of the loop started in [w]. *)
Definition in_cycle (env : Env) (w : World) (j : nat) : World :=
  (run env j SensorsTask_cycle w).1.
Definition cycle_end (env : Env) (w : World) : World := in_cycle env w 10.
Definition startup_end (env : Env) (w : World) : World :=
  (run env 4 SensorsTask_startup w).1.

(** The worlds of the start-up part. *)
Definition in_startup (env : Env) (w : World) (j : nat) : World :=
  (run env j SensorsTask_startup w).1.
(** The tick at which cycle [k] of the task started in [w] calls
    PIOS_WDG_UpdateFlag, its ninth call. *)
Definition refresh_tick (env : Env) (w : World) (k : nat) : Z :=
  tick_at_call env (at_cycle env w k 8).

(** Ticks that go by before the ten calls that follow the refresh of cycle
    [k]: the suspension of that cycle and the next cycle up to its
    refresh. *)
Definition between_refreshes (env : Env) (w : World) (k : nat) : nat :=
  sum_list (map (λ i, elapsed env (length (log (at_cycle env w k 8)) + i)) (seq 1 10)).
End observations.

(** ** The values the specification names *)

Section reference_values.
Context `{Headers}.

Definition accels_fixed : AccelsData :=
  {| Accels.x := lit 0; Accels.y := lit (-1); Accels.z := lit (-8);
     Accels.temperature := lit 0 |}.

Definition mag_fixed : MagnetometerData :=
  {| Magnetometer.x := lit 400; Magnetometer.y := lit 0; Magnetometer.z := lit 800 |}.

(** (2 + bias.x, 0 + bias.y, 1 + bias.z) *)
Definition bias_corrected (bias : GyrosBiasData) : GyrosData :=
  {| Gyros.x := add (lit 2) (GyrosBias.x bias);
     Gyros.y := add (lit 0) (GyrosBias.y bias);
     Gyros.z := add (lit 1) (GyrosBias.z bias) |}.

(** Altitude 1, every other field as in [d]. *)
Definition baro_fixed (d : BaroAltitudeData) : BaroAltitudeData :=
  {| BaroAltitude.Altitude := lit 1; BaroAltitude.other := BaroAltitude.other d |}.

(** Latitude, longitude and altitude 0, every other field as in [d]. *)
Definition gps_fixed (d : GPSPositionData) : GPSPositionData :=
  {| GPSPosition.Latitude := lit 0; GPSPosition.Longitude := lit 0;
     GPSPosition.Altitude := lit 0; GPSPosition.other := GPSPosition.other d |}.

(** The reference point, every other field as in [d]. *)
Definition home_seed (d : HomeLocationData) : HomeLocationData :=
  {| HomeLocation.Latitude := lit 0; HomeLocation.Longitude := lit 0;
     HomeLocation.Altitude := lit 0;
     HomeLocation.Be := [# lit 26000; lit 400; lit 40000];
     HomeLocation.Set_ := HOMELOCATION_SET_TRUE;
     HomeLocation.other := HomeLocation.other d |}.
End reference_values.

(** ** The calls the module is expected to make *)

Section expected_calls.
Context `{Headers}.

(** The four calls before the loop, for a task started in [w]. *)
Definition startup_calls (env : Env) (w : World) : list Call :=
  let home := obj_HomeLocation (store_at_call env (in_startup env w 1)) in
  [ Called (AlarmsClear SYSTEMALARMS_ALARM_SENSORS) tt;
    Called HomeLocationGet home;
    Called (HomeLocationSet (home_seed home)) tt;
    Called xTaskGetTickCount (tick_at_call env (in_startup env w 3)) ].

(** The ten calls of a cycle of the loop that starts in [w]. *)
Definition cycle_calls (env : Env) (w : World) : list Call :=
  let bias := obj_GyrosBias (store_at_call env (in_cycle env w 1)) in
  let baro := obj_BaroAltitude (store_at_call env (in_cycle env w 3)) in
  let gps := obj_GPSPosition (store_at_call env (in_cycle env w 5)) in
  [ Called (AccelsSet accels_fixed) tt;
    Called GyrosBiasGet bias;
    Called (GyrosSet (bias_corrected bias)) tt;
    Called BaroAltitudeGet baro;
    Called (BaroAltitudeSet (baro_fixed baro)) tt;
    Called GPSPositionGet gps;
    Called (GPSPositionSet (gps_fixed gps)) tt;
    Called (MagnetometerSet mag_fixed) tt;
    Called (PIOS_WDG_UpdateFlag PIOS_WDG_SENSORS) tt;
    Called (vTaskDelay (20 `quot` portTICK_RATE_MS)%Z) tt ].

(** All the calls of the [k] whole cycles from cycle number [a] on. *)
Fixpoint cycles_calls (env : Env) (w : World) (a k : nat) : list Call :=
  match k with
  | O => []
  | S k' => cycles_calls env w a k' ++ cycle_calls env (at_cycle env w (a + k') 0)
  end.

(** The worlds of [SensorsInitialize] and of [SensorsStart]. *)
Definition in_initialize (env : Env) (w : World) (j : nat) : World :=
  (run env j SensorsInitialize w).1.
Definition in_start (env : Env) (w : World) (j : nat) : World :=
  (run env j SensorsStart w).1.

(** The six objects [SensorsInitialize] asks the store to register. *)
Definition initialised : list UAVObjHandle :=
  [ AccelsHandle; BaroAltitudeHandle; GyrosHandle; GyrosBiasHandle;
    MagnetometerHandle; RevoCalibrationHandle ].
End expected_calls.

(** ** The two statements of the specification that the code does not meet *)

Section as_specified.
Context `{Headers}.

(** The seven records the specification lists for the bootstrap. *)
Definition listed_records : list UAVObjHandle :=
  [ AccelsHandle; GyrosHandle; GyrosBiasHandle; BaroAltitudeHandle;
    GPSPositionHandle; HomeLocationHandle; MagnetometerHandle ].

(** C3 as the specification states it: every listed record is registered
    when its registration succeeds, and the result is a failure exactly
    when the registration of a listed record fails. *)
Definition bootstrap_as_specified (env : Env) (w : World) : Prop :=
  let r := run env 6 SensorsInitialize w in
  (∀ obj, obj ∈ listed_records → init_result env obj = 0%Z → obj ∈ registered r.1)
  ∧ (r.2 ≠ Some 0%Z ↔ ∃ obj, obj ∈ listed_records ∧ init_result env obj ≠ 0%Z).

(** C8 as the specification states it: the task runs again on the
    boundaries of a fixed period, so two consecutive resumptions are a
    whole number of periods apart. *)
Definition resumes_on_period_boundaries (period : Z) (env : Env) (w : World) : Prop :=
  ∀ k, (period | now (at_cycle env w (S k) 10) - now (at_cycle env w k 10))%Z.

(** C9 as the specification states it: the flag is refreshed at least once
    per period.  Time is divided into consecutive periods from some
    [origin], and every period that begins when the flag has been refreshed
    for the first time holds a refresh. *)
Definition refreshed_in_every_period (period : Z) (env : Env) (w : World) : Prop :=
  ∃ origin : Z, ∀ m : Z,
    (refresh_tick env w 0 ≤ origin + m * period)%Z →
    ∃ k, (origin + m * period ≤ refresh_tick env w k < origin + (m + 1) * period)%Z.
End as_specified.

(** ** A bench: integer fields, a 1 ms tick *)

Global Instance Z_scalar : Scalar Z := {| lit := id; add := Z.add |}.

(** Integer fields; Home Location has one more field, Barometric Altitude
    and GPS Position two more each. *)
Definition bench : Headers :=
  {| F := Z; F_scalar := Z_scalar;
     HomeLocationOther := Z; BaroAltitudeOther := Z * Z; GPSPositionOther := Z * Z;
     portTICK_RATE_MS := 1; tskIDLE_PRIORITY := 0 |}.

Section bench_setup.
#[local] Existing Instance bench.

(** A store with Gyro Bias (5, 5, 5), a home location that is not the
    reference point, and values in the fields the task does not name. *)
Definition bench_store : UAVObjects :=
  {| obj_Accels := {| Accels.x := 3; Accels.y := 3; Accels.z := 3; Accels.temperature := 21 |};
     obj_Gyros := {| Gyros.x := 0; Gyros.y := 0; Gyros.z := 0 |};
     obj_GyrosBias := {| GyrosBias.x := 5; GyrosBias.y := 5; GyrosBias.z := 5 |};
     obj_BaroAltitude := {| BaroAltitude.Altitude := 120; BaroAltitude.other := (25, 1013) |};
     obj_GPSPosition :=
       {| GPSPosition.Latitude := 47; GPSPosition.Longitude := 8;
          GPSPosition.Altitude := 400; GPSPosition.other := (9, 3) |};
     obj_HomeLocation :=
       {| HomeLocation.Latitude := 47; HomeLocation.Longitude := 8;
          HomeLocation.Altitude := 400; HomeLocation.Be := [# 1; 2; 3];
          HomeLocation.Set_ := HomeLocation.HOMELOCATION_SET_FALSE;
          HomeLocation.other := 981 |};
     obj_Magnetometer :=
       {| Magnetometer.x := 0; Magnetometer.y := 0; Magnetometer.z := 0 |} |}%Z.

Definition power_on : World :=
  {| registered := ∅; objs := bench_store; now := 0; log := [] |}.

(** Nothing interferes, no time goes by between calls, every request
    succeeds, the delay is relative. *)
Definition quiet_env : Env :=
  {| preempt := λ _ o, o; elapsed := λ _, 0%nat; init_result := λ _, 0%Z;
     task_create := (pdPASS, 536871936%Z);
     vTaskDelay_wake := λ t n, (t + n)%Z |}.

(** As [quiet_env], but every call is made one tick after the previous
    one returned. *)
Definition busy_env : Env :=
  {| preempt := λ _ o, o; elapsed := λ _, 1%nat; init_result := λ _, 0%Z;
     task_create := (pdPASS, 536871936%Z);
     vTaskDelay_wake := λ t n, (t + n)%Z |}.

(** As [quiet_env], but another task (an estimator) sets Gyro Bias to
    (1, 2, 3) just before call number 15, which is the read of Gyro Bias in
    the second cycle. *)
Definition estimator_env : Env :=
  {| preempt := λ i o,
       if decide (i = 15%nat) then
         {| obj_Accels := obj_Accels o; obj_Gyros := obj_Gyros o;
            obj_GyrosBias :=
              {| GyrosBias.x := 1%Z; GyrosBias.y := 2%Z; GyrosBias.z := 3%Z |};
            obj_BaroAltitude := obj_BaroAltitude o;
            obj_GPSPosition := obj_GPSPosition o;
            obj_HomeLocation := obj_HomeLocation o;
            obj_Magnetometer := obj_Magnetometer o |}
       else o;
     elapsed := λ _, 0%nat; init_result := λ _, 0%Z;
     task_create := (pdPASS, 536871936%Z);
     vTaskDelay_wake := λ t n, (t + n)%Z |}.

(** As [quiet_env], but the scheduler cannot create the task. *)
Definition no_memory_env : Env :=
  {| preempt := λ _ o, o; elapsed := λ _, 0%nat; init_result := λ _, 0%Z;
     task_create := (errCOULD_NOT_ALLOCATE_REQUIRED_MEMORY, 0%Z);
     vTaskDelay_wake := λ t n, (t + n)%Z |}.

(** As [power_on], a thousand ticks later. *)
Definition late_power_on : World :=
  {| registered := ∅; objs := bench_store; now := 1000; log := [] |}.
End bench_setup.

(** ** A second bench: a tick of 50 ms, longer than the 20 ms of the loop *)

Definition coarse_bench : Headers :=
  {| F := Z; F_scalar := Z_scalar;
     HomeLocationOther := Z; BaroAltitudeOther := Z * Z; GPSPositionOther := Z * Z;
     portTICK_RATE_MS := 50; tskIDLE_PRIORITY := 0 |}.

Section coarse_bench_setup.
#[local] Existing Instance coarse_bench.

Definition coarse_store : UAVObjects :=
  {| obj_Accels := {| Accels.x := 0; Accels.y := 0; Accels.z := 0; Accels.temperature := 0 |};
     obj_Gyros := {| Gyros.x := 0; Gyros.y := 0; Gyros.z := 0 |};
     obj_GyrosBias := {| GyrosBias.x := 0; GyrosBias.y := 0; GyrosBias.z := 0 |};
     obj_BaroAltitude := {| BaroAltitude.Altitude := 0; BaroAltitude.other := (0, 0) |};
     obj_GPSPosition :=
       {| GPSPosition.Latitude := 0; GPSPosition.Longitude := 0;
          GPSPosition.Altitude := 0; GPSPosition.other := (0, 0) |};
     obj_HomeLocation :=
       {| HomeLocation.Latitude := 0; HomeLocation.Longitude := 0;
          HomeLocation.Altitude := 0; HomeLocation.Be := [# 0; 0; 0];
          HomeLocation.Set_ := HomeLocation.HOMELOCATION_SET_FALSE;
          HomeLocation.other := 0 |};
     obj_Magnetometer :=
       {| Magnetometer.x := 0; Magnetometer.y := 0; Magnetometer.z := 0 |} |}%Z.

Definition coarse_power_on : World :=
  {| registered := ∅; objs := coarse_store; now := 0; log := [] |}.

(** Nothing interferes, every call is made one tick after the previous one
    returned, the delay is relative. *)
Definition coarse_env : Env :=
  {| preempt := λ _ o, o; elapsed := λ _, 1%nat; init_result := λ _, 0%Z;
     task_create := (pdPASS, 536871936%Z);
     vTaskDelay_wake := λ t n, (t + n)%Z |}.
End coarse_bench_setup.

(** ** The module as a whole, and how its runs are compared *)

Section whole_module.
Context `{Headers}.

(** The calls that sensors.c makes before the loop of the task only. *)
Definition is_startup_call (c : Call) : bool :=
  match c with
  | Called e _ =>
      match e with
      | AlarmsClear _ | HomeLocationGet | HomeLocationSet _ | xTaskGetTickCount => true
      | _ => false
      end
  end.

(** The calls that the task makes at all: those of sensors.c but the
    initialisers and the three calls of [SensorsStart]. *)
Definition is_task_call (c : Call) : bool :=
  match c with
  | Called e _ =>
      match e with
      | UAVObjInitialize _ | xTaskCreate _ _ _ | TaskMonitorAdd _ _
      | PIOS_WDG_RegisterFlag _ => false
      | _ => true
      end
  end.

(** A call without the time in it: the tick count that xTaskGetTickCount
    handed back is blanked. *)
Definition data_of (c : Call) : Call :=
  match c with
  | Called e a =>
      match e in sensorsE T return T → Call with
      | xTaskGetTickCount => λ _, Called xTaskGetTickCount 0%Z
      | e' => λ a', Called e' a'
      end a
  end.

(** Two environments in which the other tasks write the same things. *)
Definition same_writers (env1 env2 : Env) : Prop :=
  ∀ i o, preempt env1 i o = preempt env2 i o.

(** Two worlds with the same store and, time apart, the same log. *)
Definition same_data (w1 w2 : World) : Prop :=
  objs w1 = objs w2 ∧ data_of <$> log w1 = data_of <$> log w2.

(** No other task writes the store. *)
Definition undisturbed (env : Env) : Prop := ∀ i o, preempt env i o = o.

(** The store that the task makes of a store [o] when it is left alone. *)
Definition settled (o : UAVObjects) : UAVObjects :=
  {| obj_Accels := accels_fixed;
     obj_Gyros := bias_corrected (obj_GyrosBias o);
     obj_GyrosBias := obj_GyrosBias o;
     obj_BaroAltitude := baro_fixed (obj_BaroAltitude o);
     obj_GPSPosition := gps_fixed (obj_GPSPosition o);
     obj_HomeLocation := home_seed (obj_HomeLocation o);
     obj_Magnetometer := mag_fixed |}.

(** What a call of sensors.c does to the store by itself. *)
Definition store_effect {T : Type} (e : sensorsE T) (o : UAVObjects) : UAVObjects :=
  match e with
  | HomeLocationSet d => put_HomeLocation d o
  | AccelsSet d => put_Accels d o
  | GyrosSet d => put_Gyros d o
  | BaroAltitudeSet d => put_BaroAltitude d o
  | GPSPositionSet d => put_GPSPosition d o
  | MagnetometerSet d => put_Magnetometer d o
  | _ => o
  end.

(** Ticks that went by in the work of the first [n] cycles. *)
Fixpoint total_work (env : Env) (w : World) (n : nat) : nat :=
  match n with
  | O => O
  | S n' => (total_work env w n' + work env (at_cycle env w n' 0))%nat
  end.

(** Modelled from the spec: the module as the host runs it (section 2,
    "Bootstrap must complete before Periodic Publisher starts"), for
    MODULE_INITCALL(SensorsInitialize, SensorsStart): the initialiser
    ("Called before the start function"), then the start function, then,
    when xTaskCreate answered pdPASS, [fuel] steps of the task it created. *)
Definition module_run (env : Env) (w : World) (fuel : nat) : World :=
  let initialized := (run env 6 SensorsInitialize w).1 in
  let started := (run env 3 SensorsStart initialized).1 in
  if decide ((task_create env).1 = pdPASS)
  then (run env fuel SensorsTask started).1
  else started.
End whole_module.

(** ** How the execution unfolds *)

Section unfolding.
Context `{Headers}.
Implicit Types (env : Env) (w : World).

(** Once a program has returned, more steps change nothing. *)
Lemma run_returned {R} env (t : itree sensorsE R) fuel extra w :
  is_Some (run env fuel t w).2 →
  run env (fuel + extra) t w = run env fuel t w.
Proof.
  revert t w. induction fuel as [|fuel IH]; intros t w Hret.
  - destruct extra as [|extra]; [done|].
    cbn in *. destruct (observe t); [done | by destruct Hret..].
  - cbn in *. destruct (observe t); [done | by apply IH..].
Qed.

Lemma run_startup env f w :
  run env (4 + f) SensorsTask w
  = run (R:=void) env f (ITree.forever SensorsTask_cycle) (startup_end env w).
Proof. destruct f; reflexivity. Qed.

Lemma run_forever_cycle env f w :
  run (R:=void) env (11 + f) (ITree.forever SensorsTask_cycle) w
  = run (R:=void) env f (ITree.forever SensorsTask_cycle) (cycle_end env w).
Proof. reflexivity. Qed.

Lemma run_forever_cycles env k f w :
  run (R:=void) env (11 * k + f) (ITree.forever SensorsTask_cycle) w
  = run (R:=void) env f (ITree.forever SensorsTask_cycle)
      (Nat.iter k (cycle_end env) w).
Proof.
  revert w; induction k as [|k IH]; intros w.
  - reflexivity.
  - replace (11 * S k + f)%nat with (11 + (11 * k + f))%nat by lia.
    rewrite run_forever_cycle, IH.
    by rewrite Nat.iter_succ_r.
Qed.

(** Within a cycle, the loop and its body pass through the same worlds. *)
Lemma run_forever_in_cycle env j w :
  (j ≤ 10)%nat →
  (run (R:=void) env j (ITree.forever SensorsTask_cycle) w).1 = in_cycle env w j.
Proof.
  intros Hj.
  do 11 (destruct j as [|j]; [reflexivity|]).
  lia.
Qed.

Lemma at_cycle_in_cycle env w k j :
  (j ≤ 10)%nat →
  at_cycle env w k j = in_cycle env (Nat.iter k (cycle_end env) (startup_end env w)) j.
Proof.
  intros Hj. unfold at_cycle.
  replace (4 + 11 * k + j)%nat with (4 + (11 * k + j))%nat by lia.
  by rewrite run_startup, run_forever_cycles, run_forever_in_cycle.
Qed.

Lemma at_cycle_next env w k : at_cycle env w (S k) 0 = at_cycle env w k 11.
Proof. unfold at_cycle. f_equal. f_equal. lia. Qed.

Lemma at_cycle_back_edge env w k : at_cycle env w k 11 = at_cycle env w k 10.
Proof.
  unfold at_cycle.
  replace (4 + 11 * k + 11)%nat with (4 + (11 * k + 11))%nat by lia.
  replace (4 + 11 * k + 10)%nat with (4 + (11 * k + 10))%nat by lia.
  by rewrite !run_startup, !run_forever_cycles.
Qed.
End unfolding.

(** ** The calls of the task, one by one *)

Section steps.
Context `{Headers}.
Implicit Types (env : Env) (w : World).

Lemma log_handle env {T} (e : sensorsE T) w :
  log (handle env e w).2 = log w ++ [Called e (handle env e w).1].
Proof. destruct e; cbn; try reflexivity. by case_decide. Qed.

Lemma answer_HomeLocationGet env w :
  (handle env HomeLocationGet w).1 = obj_HomeLocation (store_at_call env w).
Proof. reflexivity. Qed.

Lemma answer_GyrosBiasGet env w :
  (handle env GyrosBiasGet w).1 = obj_GyrosBias (store_at_call env w).
Proof. reflexivity. Qed.

Lemma answer_BaroAltitudeGet env w :
  (handle env BaroAltitudeGet w).1 = obj_BaroAltitude (store_at_call env w).
Proof. reflexivity. Qed.

Lemma answer_GPSPositionGet env w :
  (handle env GPSPositionGet w).1 = obj_GPSPosition (store_at_call env w).
Proof. reflexivity. Qed.

Lemma answer_xTaskGetTickCount env w :
  (handle env xTaskGetTickCount w).1 = tick_at_call env w.
Proof. reflexivity. Qed.

Lemma log_handle_unit env (e : sensorsE unit) w :
  log (handle env e w).2 = log w ++ [Called e tt].
Proof. rewrite log_handle. by destruct (handle env e w).1. Qed.

Lemma startup_call_1 env w :
  in_startup env w 1 = (handle env (AlarmsClear SYSTEMALARMS_ALARM_SENSORS) w).2.
Proof. reflexivity. Qed.

Lemma startup_call_2 env w :
  in_startup env w 2 = (handle env HomeLocationGet (in_startup env w 1)).2.
Proof. reflexivity. Qed.

Lemma seeding_is_home_seed (d : HomeLocationData) :
  HomeLocation.set_Set HOMELOCATION_SET_TRUE
    (HomeLocation.set_Be 2%fin (lit 40000)
      (HomeLocation.set_Be 1%fin (lit 400)
        (HomeLocation.set_Be 0%fin (lit 26000)
          (HomeLocation.set_Altitude (lit 0)
            (HomeLocation.set_Longitude (lit 0)
              (HomeLocation.set_Latitude (lit 0) d))))))
  = home_seed d.
Proof.
  destruct d as [la lo al be s o]. unfold home_seed. cbn.
  inv_vec be; intros b0 b1 b2. reflexivity.
Qed.

Lemma startup_call_3 env w :
  in_startup env w 3
  = (handle env
       (HomeLocationSet (home_seed (obj_HomeLocation (store_at_call env (in_startup env w 1)))))
       (in_startup env w 2)).2.
Proof.
  rewrite <- seeding_is_home_seed. reflexivity.
Qed.

Lemma startup_call_4 env w :
  in_startup env w 4 = (handle env xTaskGetTickCount (in_startup env w 3)).2.
Proof. reflexivity. Qed.

Lemma run_task_in_startup env w j :
  (j ≤ 4)%nat → (run env j SensorsTask w).1 = in_startup env w j.
Proof.
  intros Hj. do 5 (destruct j as [|j]; [reflexivity|]). lia.
Qed.

Lemma cycle_call_1 env w : in_cycle env w 1 = (handle env (AccelsSet accels_fixed) w).2.
Proof. reflexivity. Qed.

Lemma cycle_call_2 env w :
  in_cycle env w 2 = (handle env GyrosBiasGet (in_cycle env w 1)).2.
Proof. reflexivity. Qed.

Lemma cycle_call_3 env w :
  in_cycle env w 3
  = (handle env
       (GyrosSet (bias_corrected (obj_GyrosBias (store_at_call env (in_cycle env w 1)))))
       (in_cycle env w 2)).2.
Proof. reflexivity. Qed.

Lemma cycle_call_4 env w :
  in_cycle env w 4 = (handle env BaroAltitudeGet (in_cycle env w 3)).2.
Proof. reflexivity. Qed.

Lemma cycle_call_5 env w :
  in_cycle env w 5
  = (handle env
       (BaroAltitudeSet (baro_fixed (obj_BaroAltitude (store_at_call env (in_cycle env w 3)))))
       (in_cycle env w 4)).2.
Proof. reflexivity. Qed.

Lemma cycle_call_6 env w :
  in_cycle env w 6 = (handle env GPSPositionGet (in_cycle env w 5)).2.
Proof. reflexivity. Qed.

Lemma cycle_call_7 env w :
  in_cycle env w 7
  = (handle env
       (GPSPositionSet (gps_fixed (obj_GPSPosition (store_at_call env (in_cycle env w 5)))))
       (in_cycle env w 6)).2.
Proof. reflexivity. Qed.

Lemma cycle_call_8 env w :
  in_cycle env w 8 = (handle env (MagnetometerSet mag_fixed) (in_cycle env w 7)).2.
Proof. reflexivity. Qed.

Lemma cycle_call_9 env w :
  in_cycle env w 9 = (handle env (PIOS_WDG_UpdateFlag PIOS_WDG_SENSORS) (in_cycle env w 8)).2.
Proof. reflexivity. Qed.

Lemma cycle_call_10 env w :
  in_cycle env w 10
  = (handle env (vTaskDelay (20 `quot` portTICK_RATE_MS)%Z) (in_cycle env w 9)).2.
Proof. reflexivity. Qed.
End steps.

(** ** The log of the task *)

Section logs.
Context `{Headers}.
Implicit Types (env : Env) (w : World).

Lemma calls_since_log w w' l : log w' = log w ++ l → calls_since w w' = l.
Proof. unfold calls_since. intros ->. by rewrite drop_app_length. Qed.

(** One more call: rewrite the world after it with the lemma for that
    call, then read the log off the handler. *)
Local Ltac one_more_call Hc step :=
  injection Hc as <-;
  rewrite step, ?log_handle_unit, ?log_handle, ?answer_HomeLocationGet,
    ?answer_xTaskGetTickCount, ?answer_GyrosBiasGet, ?answer_BaroAltitudeGet,
    ?answer_GPSPositionGet;
  reflexivity.

Lemma log_in_startup_S env w j c :
  startup_calls env w !! j = Some c →
  log (in_startup env w (S j)) = log (in_startup env w j) ++ [c].
Proof.
  intros Hc.
  destruct j as [|j]; [one_more_call Hc startup_call_1|].
  destruct j as [|j]; [one_more_call Hc startup_call_2|].
  destruct j as [|j]; [one_more_call Hc startup_call_3|].
  destruct j as [|j]; [one_more_call Hc startup_call_4|].
  discriminate Hc.
Qed.

Lemma log_in_startup env w j :
  (j ≤ 4)%nat → log (in_startup env w j) = log w ++ take j (startup_calls env w).
Proof.
  induction j as [|j IH]; intros Hj.
  - by rewrite app_nil_r.
  - destruct (lookup_lt_is_Some_2 (startup_calls env w) j) as [c Hc];
      [cbn; lia|].
    rewrite (log_in_startup_S _ _ _ _ Hc), IH by lia.
    by rewrite (take_S_r _ _ _ Hc), app_assoc.
Qed.

Lemma log_in_cycle_S env w j c :
  cycle_calls env w !! j = Some c →
  log (in_cycle env w (S j)) = log (in_cycle env w j) ++ [c].
Proof.
  intros Hc.
  destruct j as [|j]; [one_more_call Hc cycle_call_1|].
  destruct j as [|j]; [one_more_call Hc cycle_call_2|].
  destruct j as [|j]; [one_more_call Hc cycle_call_3|].
  destruct j as [|j]; [one_more_call Hc cycle_call_4|].
  destruct j as [|j]; [one_more_call Hc cycle_call_5|].
  destruct j as [|j]; [one_more_call Hc cycle_call_6|].
  destruct j as [|j]; [one_more_call Hc cycle_call_7|].
  destruct j as [|j]; [one_more_call Hc cycle_call_8|].
  destruct j as [|j]; [one_more_call Hc cycle_call_9|].
  destruct j as [|j]; [one_more_call Hc cycle_call_10|].
  discriminate Hc.
Qed.

Lemma log_in_cycle env w j :
  (j ≤ 10)%nat → log (in_cycle env w j) = log w ++ take j (cycle_calls env w).
Proof.
  induction j as [|j IH]; intros Hj.
  - by rewrite app_nil_r.
  - destruct (lookup_lt_is_Some_2 (cycle_calls env w) j) as [c Hc];
      [cbn; lia|].
    rewrite (log_in_cycle_S _ _ _ _ Hc), IH by lia.
    by rewrite (take_S_r _ _ _ Hc), app_assoc.
Qed.

Lemma log_cycle_end env w : log (cycle_end env w) = log w ++ cycle_calls env w.
Proof. unfold cycle_end. by rewrite log_in_cycle. Qed.

Lemma log_startup_end env w :
  log (startup_end env w) = log w ++ startup_calls env w.
Proof.
  change (startup_end env w) with (in_startup env w 4).
  by rewrite log_in_startup.
Qed.

(** The worlds at the head of the loop. *)
Lemma at_cycle_0 env w k :
  at_cycle env w k 0 = Nat.iter k (cycle_end env) (startup_end env w).
Proof. by rewrite at_cycle_in_cycle by lia. Qed.

Lemma at_cycle_from_head env w k j :
  (j ≤ 10)%nat → at_cycle env w k j = in_cycle env (at_cycle env w k 0) j.
Proof. intros Hj. by rewrite at_cycle_0, at_cycle_in_cycle. Qed.

Lemma at_cycle_S env w k :
  at_cycle env w (S k) 0 = cycle_end env (at_cycle env w k 0).
Proof. by rewrite !at_cycle_0. Qed.

Lemma log_at_later_head env w a k :
  log (at_cycle env w (a + k) 0) = log (at_cycle env w a 0) ++ cycles_calls env w a k.
Proof.
  induction k as [|k IH].
  - by rewrite Nat.add_0_r, app_nil_r.
  - rewrite Nat.add_succ_r, at_cycle_S, log_cycle_end, IH. cbn [cycles_calls].
    by rewrite <- !app_assoc.
Qed.

Lemma log_at_head env w k :
  log (at_cycle env w k 0) = log w ++ startup_calls env w ++ cycles_calls env w 0 k.
Proof.
  pose proof (log_at_later_head env w 0 k) as Hk. cbn [Nat.add] in Hk.
  rewrite Hk, at_cycle_0.
  change (Nat.iter 0 _ ?x) with x.
  by rewrite log_startup_end, <- app_assoc.
Qed.

Lemma log_at_cycle env w k j :
  (j ≤ 10)%nat →
  log (at_cycle env w k j)
  = log w ++ startup_calls env w ++ cycles_calls env w 0 k
      ++ take j (cycle_calls env (at_cycle env w k 0)).
Proof.
  intros Hj.
  by rewrite at_cycle_from_head, log_in_cycle, log_at_head, <- !app_assoc.
Qed.

(** Every step count from 4 on is inside some cycle of the loop. *)
Lemma steps_in_cycle (fuel : nat) :
  (4 ≤ fuel)%nat → ∃ k j, (j ≤ 10)%nat ∧ fuel = (4 + 11 * k + j)%nat.
Proof.
  intros Hf. exists ((fuel - 4) / 11)%nat, ((fuel - 4) mod 11)%nat.
  pose proof (Nat.div_mod_eq (fuel - 4) 11).
  pose proof (Nat.mod_upper_bound (fuel - 4) 11).
  lia.
Qed.
End logs.

(** ** The calls between two points of the execution *)

Section segments.
Context `{Headers}.
Implicit Types (env : Env) (w : World).

Lemma calls_to_head env w k :
  calls_since w (at_cycle env w k 0) = startup_calls env w ++ cycles_calls env w 0 k.
Proof. apply calls_since_log, log_at_head. Qed.

Lemma calls_to_cycle env w k j :
  (j ≤ 10)%nat →
  calls_since w (at_cycle env w k j)
  = startup_calls env w ++ cycles_calls env w 0 k
      ++ take j (cycle_calls env (at_cycle env w k 0)).
Proof. intros Hj. by apply calls_since_log, log_at_cycle. Qed.

Lemma calls_between_heads env w a k :
  calls_since (at_cycle env w a 0) (at_cycle env w (a + k) 0) = cycles_calls env w a k.
Proof. apply calls_since_log, log_at_later_head. Qed.

Lemma calls_in_cycle env w k i j :
  (i ≤ j ≤ 10)%nat →
  calls_since (at_cycle env w k i) (at_cycle env w k j)
  = drop i (take j (cycle_calls env (at_cycle env w k 0))).
Proof.
  intros [Hi Hj]. unfold calls_since.
  rewrite (at_cycle_from_head _ _ _ i), (at_cycle_from_head _ _ _ j) by lia.
  rewrite !log_in_cycle by lia.
  rewrite length_app, drop_app_add, length_take_le; [done | cbn; lia].
Qed.

Lemma calls_of_cycle env w k :
  calls_since (at_cycle env w k 0) (at_cycle env w (S k) 0)
  = cycle_calls env (at_cycle env w k 0).
Proof. apply calls_since_log. by rewrite at_cycle_S, log_cycle_end. Qed.

(** What is read at a given point of a cycle does not depend on how the
    point is named. *)
Lemma store_in_cycle env w k j :
  (j ≤ 10)%nat →
  store_at_call env (in_cycle env (at_cycle env w k 0) j)
  = store_at_call env (at_cycle env w k j).
Proof. intros Hj. by rewrite <- at_cycle_from_head. Qed.

(** A record that every cycle publishes exactly once, with the same value,
    and that the start-up does not publish, has been published [k] times
    after [k] cycles. *)
Lemma published_every_cycle {A} (f : Call → option A) (v : A) env w k :
  omap f (startup_calls env w) = [] →
  (∀ w', omap f (cycle_calls env w') = [v]) →
  omap f (calls_since w (at_cycle env w k 0)) = replicate k v.
Proof.
  intros Hs Hc. rewrite calls_to_head, omap_app, Hs. cbn [app].
  induction k as [|k IH]; [done|].
  cbn [cycles_calls]. by rewrite omap_app, IH, Hc, replicate_S_end.
Qed.

Lemma omap_take_nil {A} (f : Call → option A) (l : list Call) j :
  omap f l = [] → omap f (take j l) = [].
Proof.
  revert j; induction l as [|c l IH]; intros [|j] Hl; try done.
  cbn in *. destruct (f c); [done|]. by apply IH.
Qed.

Lemma omap_cycles_nil {A} (f : Call → option A) env w a k :
  (∀ w', omap f (cycle_calls env w') = []) →
  omap f (cycles_calls env w a k) = [].
Proof.
  intros Hc. induction k as [|k IH]; [done|].
  cbn [cycles_calls]. by rewrite omap_app, IH, Hc.
Qed.

(** A record that no cycle publishes is not published between two heads of
    the loop. *)
Lemma published_in_no_cycle {A} (f : Call → option A) env w a k :
  (∀ w', omap f (cycle_calls env w') = []) →
  omap f (calls_since (at_cycle env w a 0) (at_cycle env w (a + k) 0)) = [].
Proof. intros Hc. by rewrite calls_between_heads, omap_cycles_nil. Qed.

(** A call that is not a write of Home Location leaves the record as it
    is, when the other tasks do. *)
Lemma home_after_handle env {T} (e : sensorsE T) w :
  leaves_HomeLocation env →
  written_HomeLocation (Called e (handle env e w).1) = None →
  obj_HomeLocation (objs (handle env e w).2) = obj_HomeLocation (objs w).
Proof.
  intros Henv He.
  destruct e; cbn in *; try discriminate He; try apply Henv.
  case_decide; apply Henv.
Qed.

Lemma home_after_cycle env w :
  leaves_HomeLocation env →
  obj_HomeLocation (objs (cycle_end env w)) = obj_HomeLocation (objs w).
Proof.
  intros Henv. unfold cycle_end.
  rewrite cycle_call_10, home_after_handle by done.
  rewrite cycle_call_9, home_after_handle by done.
  rewrite cycle_call_8, home_after_handle by done.
  rewrite cycle_call_7, home_after_handle by done.
  rewrite cycle_call_6, home_after_handle by done.
  rewrite cycle_call_5, home_after_handle by done.
  rewrite cycle_call_4, home_after_handle by done.
  rewrite cycle_call_3, home_after_handle by done.
  rewrite cycle_call_2, home_after_handle by done.
  by rewrite cycle_call_1, home_after_handle.
Qed.

Lemma home_after_cycles env w a k :
  leaves_HomeLocation env →
  obj_HomeLocation (objs (at_cycle env w (a + k) 0))
  = obj_HomeLocation (objs (at_cycle env w a 0)).
Proof.
  intros Henv. induction k as [|k IH].
  - by rewrite Nat.add_0_r.
  - by rewrite Nat.add_succ_r, at_cycle_S, home_after_cycle.
Qed.
End segments.

(** ** The periodic publisher *)

Section publisher.
Context `{Headers}.
Implicit Types (env : Env) (w : World).

(** C5.  In every cycle [k] of the loop, whatever the environment [env] and
    the world [w] the task was started in, the first call publishes the
    Accelerometer record x = 0, y = -1, z = -8, temperature = 0; it is the
    only Accelerometer record published in that cycle, it is what the store
    holds when the call returns, and after [k] cycles exactly [k] such
    records have been published. *)
Theorem accels_published_fixed env w k :
  let fixed :=
    {| Accels.x := lit 0; Accels.y := lit (-1); Accels.z := lit (-8);
       Accels.temperature := lit 0 |} in
  calls_since (at_cycle env w k 0) (at_cycle env w k 1) = [Called (AccelsSet fixed) tt]
  ∧ omap written_Accels (calls_since (at_cycle env w k 0) (at_cycle env w (S k) 0))
    = [fixed]
  ∧ obj_Accels (objs (at_cycle env w k 1)) = fixed
  ∧ omap written_Accels (calls_since w (at_cycle env w k 0)) = replicate k fixed.
Proof.
  cbn zeta. repeat split.
  - by rewrite calls_in_cycle by lia.
  - by rewrite calls_of_cycle.
  - by rewrite (at_cycle_from_head _ _ _ 1), cycle_call_1 by lia.
  - by apply published_every_cycle.
Qed.

(** C1.  In every cycle [k] the task reads Gyro Bias (its second call) and
    then publishes the Gyroscope record (2 + bias.x, 0 + bias.y,
    1 + bias.z), where [bias] is the content of the Gyro Bias record in the
    store at the instant of that read; this is the only Gyroscope record of
    the cycle and what the store holds when the call returns.  In
    particular, when small sums are exact and the record read is (5, 5, 5),
    the record published is (7, 5, 6). *)
Theorem gyros_published_bias_corrected env w k :
  let bias := obj_GyrosBias (store_at_call env (at_cycle env w k 1)) in
  let published :=
    {| Gyros.x := add (lit 2) (GyrosBias.x bias);
       Gyros.y := add (lit 0) (GyrosBias.y bias);
       Gyros.z := add (lit 1) (GyrosBias.z bias) |} in
  calls_since (at_cycle env w k 1) (at_cycle env w k 3)
    = [Called GyrosBiasGet bias; Called (GyrosSet published) tt]
  ∧ omap written_Gyros (calls_since (at_cycle env w k 0) (at_cycle env w (S k) 0))
    = [published]
  ∧ obj_Gyros (objs (at_cycle env w k 3)) = published
  ∧ (exact_small F →
     bias = {| GyrosBias.x := lit 5; GyrosBias.y := lit 5; GyrosBias.z := lit 5 |} →
     published = {| Gyros.x := lit 7; Gyros.y := lit 5; Gyros.z := lit 6 |}).
Proof.
  intros bias published. subst bias published.
  rewrite <- (store_in_cycle env w k 1) by lia.
  repeat split.
  - by rewrite calls_in_cycle by lia.
  - by rewrite calls_of_cycle.
  - by rewrite (at_cycle_from_head _ _ _ 3), cycle_call_3 by lia.
  - intros Hexact ->. cbn. by rewrite !Hexact by (cbn; lia).
Qed.

(** C4.  In every cycle [k] the task reads Barometric Altitude and writes
    it back with the altitude set to 1 and every other field as read; then
    it reads GPS Position and writes it back with latitude, longitude and
    altitude set to 0 and every other field as read.  These are the only
    writes of the two records in the cycle. *)
Theorem baro_gps_read_modify_write env w k :
  let baro := obj_BaroAltitude (store_at_call env (at_cycle env w k 3)) in
  let gps := obj_GPSPosition (store_at_call env (at_cycle env w k 5)) in
  let baro' :=
    {| BaroAltitude.Altitude := lit 1; BaroAltitude.other := BaroAltitude.other baro |} in
  let gps' :=
    {| GPSPosition.Latitude := lit 0; GPSPosition.Longitude := lit 0;
       GPSPosition.Altitude := lit 0; GPSPosition.other := GPSPosition.other gps |} in
  calls_since (at_cycle env w k 3) (at_cycle env w k 7)
    = [ Called BaroAltitudeGet baro; Called (BaroAltitudeSet baro') tt;
        Called GPSPositionGet gps; Called (GPSPositionSet gps') tt ]
  ∧ omap written_BaroAltitude
      (calls_since (at_cycle env w k 0) (at_cycle env w (S k) 0)) = [baro']
  ∧ omap written_GPSPosition
      (calls_since (at_cycle env w k 0) (at_cycle env w (S k) 0)) = [gps']
  ∧ obj_BaroAltitude (objs (at_cycle env w k 5)) = baro'
  ∧ obj_GPSPosition (objs (at_cycle env w k 7)) = gps'.
Proof.
  intros baro gps baro' gps'. subst baro' gps' baro gps.
  rewrite <- (store_in_cycle env w k 3), <- (store_in_cycle env w k 5) by lia.
  repeat split.
  - by rewrite calls_in_cycle by lia.
  - by rewrite calls_of_cycle.
  - by rewrite calls_of_cycle.
  - by rewrite (at_cycle_from_head _ _ _ 5), cycle_call_5 by lia.
  - by rewrite (at_cycle_from_head _ _ _ 7), cycle_call_7 by lia.
Qed.

(** C6.  In every cycle [k] the eighth call publishes the Magnetometer
    record (400, 0, 800); after [n] cycles exactly [n] Magnetometer records
    have been published, all equal to it.  From the end of the first cycle
    on the task makes no write of Home Location, so that, when no other
    task writes it either, the record stays what it was at the end of the
    first cycle. *)
Theorem magnetometer_published_fixed env w n :
  let fixed :=
    {| Magnetometer.x := lit 400; Magnetometer.y := lit 0;
       Magnetometer.z := lit 800 |} in
  (∀ k, calls_since (at_cycle env w k 7) (at_cycle env w k 8)
        = [Called (MagnetometerSet fixed) tt])
  ∧ omap written_Magnetometer (calls_since w (at_cycle env w n 0))
    = replicate n fixed
  ∧ omap written_HomeLocation
      (calls_since (at_cycle env w 1 0) (at_cycle env w (1 + n) 0)) = []
  ∧ (leaves_HomeLocation env →
     obj_HomeLocation (objs (at_cycle env w (1 + n) 0))
     = obj_HomeLocation (objs (at_cycle env w 1 0))).
Proof.
  cbn zeta. repeat split.
  - intros k. by rewrite calls_in_cycle by lia.
  - by apply published_every_cycle.
  - by apply published_in_no_cycle.
  - apply home_after_cycles.
Qed.

(** The ten calls of every cycle [k] are, in this order: the Accels
    publish, the Gyro Bias read, the Gyros publish, the Barometric Altitude
    read and publish, the GPS Position read and publish, the Magnetometer
    publish, one refresh of the watchdog flag of this task, and the
    suspension.  Nothing else happens before the next cycle begins, so after
    [n] cycles the flag has been refreshed exactly [n] times and the task
    has been suspended exactly [n] times. *)
Lemma refresh_is_ninth_call_of_cycle env w k n :
  map call_name (calls_since (at_cycle env w k 0) (at_cycle env w k 10))
    = [ "AccelsSet"; "GyrosBiasGet"; "GyrosSet"; "BaroAltitudeGet";
        "BaroAltitudeSet"; "GPSPositionGet"; "GPSPositionSet";
        "MagnetometerSet"; "PIOS_WDG_UpdateFlag"; "vTaskDelay" ]%string
  ∧ calls_since (at_cycle env w k 8) (at_cycle env w k 9)
    = [Called (PIOS_WDG_UpdateFlag PIOS_WDG_SENSORS) tt]
  ∧ calls_since (at_cycle env w k 10) (at_cycle env w (S k) 0) = []
  ∧ omap refreshed_flag (calls_since w (at_cycle env w n 0))
    = replicate n PIOS_WDG_SENSORS
  ∧ length (omap delay_asked (calls_since w (at_cycle env w n 0))) = n.
Proof.
  repeat split.
  - by rewrite calls_in_cycle by lia.
  - by rewrite calls_in_cycle by lia.
  - apply calls_since_log.
    by rewrite at_cycle_next, at_cycle_back_edge, app_nil_r.
  - by apply published_every_cycle.
  - rewrite (published_every_cycle delay_asked (20 `quot` portTICK_RATE_MS)%Z)
      by done.
    apply length_replicate.
Qed.

(** C2.  At every point of the execution of the task (after any number
    [fuel] of steps) the task has written Home Location not at all, up to
    its second call, and exactly once from its third call on.  The third
    call is one of the four calls made before the loop is entered.  The
    record written has latitude, longitude and altitude 0, magnetic field
    (26000, 400, 40000) and the flag set, whatever the record [home] that
    was in the store; it is what the store holds when the write returns. *)
Theorem home_location_written_once env w fuel :
  let home := obj_HomeLocation (store_at_call env (run env 1 SensorsTask w).1) in
  let seeded :=
    {| HomeLocation.Latitude := lit 0; HomeLocation.Longitude := lit 0;
       HomeLocation.Altitude := lit 0;
       HomeLocation.Be := [# lit 26000; lit 400; lit 40000];
       HomeLocation.Set_ := HOMELOCATION_SET_TRUE;
       HomeLocation.other := HomeLocation.other home |} in
  omap written_HomeLocation (calls_since w (run env fuel SensorsTask w).1)
    = (if decide (fuel < 3)%nat then [] else [seeded])
  ∧ map call_name (calls_since w (at_cycle env w 0 0))
    = [ "AlarmsClear"; "HomeLocationGet"; "HomeLocationSet";
        "xTaskGetTickCount" ]%string
  ∧ obj_HomeLocation (objs (run env 3 SensorsTask w).1) = seeded.
Proof.
  intros home seeded. subst seeded home.
  rewrite (run_task_in_startup env w 1), (run_task_in_startup env w 3) by lia.
  repeat split.
  - destruct (decide (fuel < 4)%nat) as [Hlt|Hge].
    + rewrite run_task_in_startup by lia.
      rewrite (calls_since_log _ _ _ (log_in_startup env w fuel ltac:(lia))).
      do 4 (destruct fuel as [|fuel]; [case_decide; first [lia | done]|]).
      lia.
    + destruct (steps_in_cycle fuel) as (k & j & Hj & ->); [lia|].
      fold (at_cycle env w k j).
      rewrite calls_to_cycle, !omap_app by done.
      rewrite omap_cycles_nil, omap_take_nil by done.
      case_decide; first [lia | done].
  - by rewrite calls_to_head.
  - by rewrite startup_call_3.
Qed.

(** C10.  The first three calls of the task are: clear the sensors alarm,
    read Home Location, write Home Location.  The record written is the
    record [home] that was read with the latitude, longitude, altitude,
    the three components of Be and the flag overwritten; every other field
    is written back as it was read. *)
Theorem home_location_read_modify_write env w :
  let home := obj_HomeLocation (store_at_call env (run env 1 SensorsTask w).1) in
  let seeded :=
    {| HomeLocation.Latitude := lit 0; HomeLocation.Longitude := lit 0;
       HomeLocation.Altitude := lit 0;
       HomeLocation.Be := [# lit 26000; lit 400; lit 40000];
       HomeLocation.Set_ := HOMELOCATION_SET_TRUE;
       HomeLocation.other := HomeLocation.other home |} in
  calls_since w (run env 3 SensorsTask w).1
    = [ Called (AlarmsClear SYSTEMALARMS_ALARM_SENSORS) tt;
        Called HomeLocationGet home;
        Called (HomeLocationSet seeded) tt ]
  ∧ HomeLocation.other (obj_HomeLocation (objs (run env 3 SensorsTask w).1))
    = HomeLocation.other home.
Proof.
  intros home seeded. subst seeded home.
  rewrite (run_task_in_startup env w 1), (run_task_in_startup env w 3) by lia.
  split.
  - by rewrite (calls_since_log _ _ _ (log_in_startup env w 3 ltac:(lia))).
  - by rewrite startup_call_3.
Qed.
End publisher.

(** ** The end-of-cycle suspension *)

Section timing.
Context `{Headers}.
Implicit Types (env : Env) (w : World).

Lemma tick_at_call_eq env w :
  tick_at_call env w = (now w + Z.of_nat (elapsed env (length (log w))))%Z.
Proof. reflexivity. Qed.

(** Only the suspension moves the clock otherwise than by the ticks that
    went by before the call. *)
Lemma now_after_handle env {T} (e : sensorsE T) w :
  delay_asked (Called e (handle env e w).1) = None →
  now (handle env e w).2 = tick_at_call env w.
Proof.
  intros He. destruct e; cbn in *; try discriminate He; try reflexivity.
  by case_decide.
Qed.

Lemma now_after_delay env n w :
  now (handle env (vTaskDelay n) w).2 = vTaskDelay_wake env (tick_at_call env w) n.
Proof. reflexivity. Qed.

Lemma length_log_in_cycle env w j :
  (j ≤ 10)%nat → length (log (in_cycle env w j)) = (length (log w) + j)%nat.
Proof.
  intros Hj. rewrite log_in_cycle by done.
  rewrite length_app, length_take_le; [done | cbn; lia].
Qed.

Lemma now_in_cycle_S env w j :
  (j < 9)%nat →
  now (in_cycle env w (S j))
  = (now (in_cycle env w j) + Z.of_nat (elapsed env (length (log w) + j)))%Z.
Proof.
  intros Hj. rewrite <- (length_log_in_cycle env w j), <- tick_at_call_eq by lia.
  destruct j as [|j]; [by rewrite cycle_call_1, now_after_handle|].
  destruct j as [|j]; [by rewrite cycle_call_2, now_after_handle|].
  destruct j as [|j]; [by rewrite cycle_call_3, now_after_handle|].
  destruct j as [|j]; [by rewrite cycle_call_4, now_after_handle|].
  destruct j as [|j]; [by rewrite cycle_call_5, now_after_handle|].
  destruct j as [|j]; [by rewrite cycle_call_6, now_after_handle|].
  destruct j as [|j]; [by rewrite cycle_call_7, now_after_handle|].
  destruct j as [|j]; [by rewrite cycle_call_8, now_after_handle|].
  destruct j as [|j]; [by rewrite cycle_call_9, now_after_handle|].
  lia.
Qed.

(** The suspension is asked for when the work of the cycle is done. *)
Lemma tick_at_suspension env w :
  tick_at_call env (in_cycle env w 9) = (now w + Z.of_nat (work env w))%Z.
Proof.
  rewrite tick_at_call_eq, length_log_in_cycle by lia.
  rewrite !now_in_cycle_S by lia.
  change (now (in_cycle env w 0)) with (now w).
  unfold work. cbn [seq map sum_list sum_list_with id]. lia.
Qed.

(** C8, as amended.  The last call of every cycle [k] is
    vTaskDelay(20 / portTICK_RATE_MS).  It is made when the work of the
    cycle is done, at tick [called_at], and the task runs again at the tick
    that the scheduler's rule for vTaskDelay gives for [called_at] and that
    number of ticks; the tick count read before the loop plays no part.
    Under the relative delay of FreeRTOS the task runs again at
    [called_at] + 20 / portTICK_RATE_MS: the delay is measured from the end
    of the work of the cycle.  For a tick of 1 to 20 ms the number of ticks
    asked for is not the one that SENSOR_PERIOD would give. *)
Theorem suspension_is_a_relative_delay env w k :
  let ticks := (20 `quot` portTICK_RATE_MS)%Z in
  let called_at :=
    (now (at_cycle env w k 0) + Z.of_nat (work env (at_cycle env w k 0)))%Z in
  calls_since (at_cycle env w k 9) (at_cycle env w k 10)
    = [Called (vTaskDelay ticks) tt]
  ∧ tick_at_call env (at_cycle env w k 9) = called_at
  ∧ now (at_cycle env w k 10) = vTaskDelay_wake env called_at ticks
  ∧ now (at_cycle env w (S k) 0) = now (at_cycle env w k 10)
  ∧ (relative_delay env → now (at_cycle env w (S k) 0) = (called_at + ticks)%Z)
  ∧ ((0 < portTICK_RATE_MS ≤ 20)%Z →
     ticks ≠ (SENSOR_PERIOD `quot` portTICK_RATE_MS)%Z).
Proof.
  intros ticks called_at. subst ticks called_at.
  assert (Hnext : at_cycle env w (S k) 0 = at_cycle env w k 10)
    by by rewrite at_cycle_next, at_cycle_back_edge.
  rewrite Hnext.
  rewrite (at_cycle_from_head _ _ _ 10), (at_cycle_from_head _ _ _ 9) by lia.
  rewrite cycle_call_10, now_after_delay, tick_at_suspension.
  repeat split.
  - apply calls_since_log. by rewrite log_handle_unit.
  - intros Hrel. apply Hrel.
  - intros Hrate. unfold SENSOR_PERIOD.
    assert (2 `quot` portTICK_RATE_MS < 20 `quot` portTICK_RATE_MS)%Z; [|lia].
    rewrite !Z.quot_div_nonneg by lia.
    destruct (decide (portTICK_RATE_MS ≤ 2)%Z).
    + assert (portTICK_RATE_MS = 1 ∨ portTICK_RATE_MS = 2)%Z as [-> | ->] by lia; done.
    + rewrite (Z.div_small 2) by lia.
      apply Z.div_str_pos. lia.
Qed.
End timing.

(** ** Bootstrap and start *)

Section startup.
Context `{Headers}.
Implicit Types (env : Env) (w : World).

Lemma in_initialize_S env w j obj :
  initialised !! j = Some obj →
  in_initialize env w (S j) = (handle env (UAVObjInitialize obj) (in_initialize env w j)).2.
Proof.
  intros Hobj.
  do 6 (destruct j as [|j]; [by injection Hobj as <-|]).
  discriminate Hobj.
Qed.

Lemma log_in_initialize env w j :
  (j ≤ 6)%nat →
  log (in_initialize env w j)
  = log w ++ take j (map (λ obj, Called (UAVObjInitialize obj) (init_result env obj))
                       initialised).
Proof.
  induction j as [|j IH]; intros Hj.
  - by rewrite app_nil_r.
  - destruct (lookup_lt_is_Some_2 initialised j) as [obj Hobj]; [cbn; lia|].
    rewrite (in_initialize_S _ _ _ _ Hobj), log_handle, IH by lia.
    erewrite take_S_r; [by rewrite app_assoc|].
    by rewrite list_lookup_fmap, Hobj.
Qed.

Lemma registered_after_init env obj w :
  init_result env obj = 0%Z →
  registered (handle env (UAVObjInitialize obj) w).2 = {[obj]} ∪ registered w.
Proof. intros Hok. cbn. by rewrite Hok. Qed.

Lemma registered_in_initialize env w j :
  (j ≤ 6)%nat →
  (∀ obj, obj ∈ initialised → init_result env obj = 0%Z) →
  registered (in_initialize env w j) = list_to_set (take j initialised) ∪ registered w.
Proof.
  intros Hj Hok. induction j as [|j IH].
  - cbn. by rewrite (left_id_L ∅ (∪)).
  - destruct (lookup_lt_is_Some_2 initialised j) as [obj Hobj]; [cbn; lia|].
    rewrite (in_initialize_S _ _ _ _ Hobj), registered_after_init, IH
      by (lia || eauto using list_elem_of_lookup_2).
    rewrite (take_S_r _ _ _ Hobj), list_to_set_app_L. cbn.
    rewrite (right_id_L ∅ (∪)), (assoc_L (∪)).
    f_equal. apply (comm_L (∪)).
Qed.

(** [SensorsInitialize] returns 0 whatever the store answered; it has
    returned after its six calls. *)
Lemma SensorsInitialize_result env w :
  (run env 6 SensorsInitialize w).2 = Some 0%Z.
Proof. reflexivity. Qed.

Lemma SensorsInitialize_returned env w extra :
  run env (6 + extra) SensorsInitialize w = run env 6 SensorsInitialize w.
Proof. apply run_returned. by rewrite SensorsInitialize_result. Qed.

(** C3, as amended.  [SensorsInitialize] makes six calls and returns
    (given six steps or more); the calls ask the store to register, in
    this order, Accels, BaroAltitude, Gyros, GyrosBias, Magnetometer and
    RevoCalibration.  When each of these registrations succeeds, it returns
    0 and the objects registered afterwards are these six and those that
    were registered before; GPS Position and Home Location are not among
    the six. *)
Theorem bootstrap_registers_six env w extra :
  let r := run env (6 + extra) SensorsInitialize w in
  let six :=
    [ AccelsHandle; BaroAltitudeHandle; GyrosHandle; GyrosBiasHandle;
      MagnetometerHandle; RevoCalibrationHandle ] in
  length (calls_since w r.1) = 6%nat
  ∧ omap registration (calls_since w r.1) = six
  ∧ (GPSPositionHandle ∉ six) ∧ (HomeLocationHandle ∉ six)
  ∧ ((∀ obj, obj ∈ six → init_result env obj = 0%Z) →
     r.2 = Some 0%Z ∧ registered r.1 = list_to_set six ∪ registered w).
Proof.
  intros r six. subst r six. rewrite SensorsInitialize_returned.
  change (run env 6 SensorsInitialize w).1 with (in_initialize env w 6).
  rewrite (calls_since_log _ _ _ (log_in_initialize env w 6 ltac:(lia))).
  repeat split.
  - compute_done.
  - compute_done.
  - by rewrite (registered_in_initialize env w 6).
Qed.

Lemma log_in_start env w :
  log (in_start env w 3)
  = log w ++
    [ Called (xTaskCreate "Sensors" 385 TASK_PRIORITY) (task_create env);
      Called (TaskMonitorAdd TASKINFO_RUNNING_SENSORS (task_create env).2) tt;
      Called (PIOS_WDG_RegisterFlag PIOS_WDG_SENSORS) tt ].
Proof.
  destruct env as [others ticks results [code handle_left] wake].
  set (env := Build_Env _ _ _ _ _). cbn [task_create].
  change (task_create env) with (code, handle_left).
  change (in_start env w 3) with
    (handle env (PIOS_WDG_RegisterFlag PIOS_WDG_SENSORS) (in_start env w 2)).2.
  rewrite log_handle_unit.
  change (in_start env w 2) with
    (handle env (TaskMonitorAdd TASKINFO_RUNNING_SENSORS handle_left)
       (in_start env w 1)).2.
  rewrite log_handle_unit.
  change (in_start env w 1) with
    (handle env (xTaskCreate "Sensors" 385 TASK_PRIORITY) w).2.
  rewrite log_handle. by rewrite <- !app_assoc.
Qed.

(** [SensorsStart] makes its three calls and returns 0 whatever
    xTaskCreate answered. *)
Lemma SensorsStart_calls_and_result env w extra :
  let r := run env (3 + extra) SensorsStart w in
  calls_since w r.1
  = [ Called (xTaskCreate "Sensors" 385 TASK_PRIORITY) (task_create env);
      Called (TaskMonitorAdd TASKINFO_RUNNING_SENSORS (task_create env).2) tt;
      Called (PIOS_WDG_RegisterFlag PIOS_WDG_SENSORS) tt ]
  ∧ r.2 = Some 0%Z.
Proof.
  assert (Hret : (run env 3 SensorsStart w).2 = Some 0%Z)
    by by destruct env as [others ticks results [code handle_left] wake].
  cbn zeta. rewrite run_returned by by rewrite Hret.
  split; [apply calls_since_log, log_in_start | done].
Qed.
End startup.

Lemma Z_exact_small : exact_small Z.
Proof. by intros a b _ _. Qed.

(** ** The bench, run *)

Section bench.
#[local] Existing Instance bench.

(** The model runs.  One cycle on the quiet bench: the fourteen calls, and
    the store they leave (the fields the task does not name are those of
    [bench_store]). *)
Example bench_first_cycle_calls :
  map call_name (log (at_cycle quiet_env power_on 1 0))
  = [ "AlarmsClear"; "HomeLocationGet"; "HomeLocationSet"; "xTaskGetTickCount";
      "AccelsSet"; "GyrosBiasGet"; "GyrosSet"; "BaroAltitudeGet";
      "BaroAltitudeSet"; "GPSPositionGet"; "GPSPositionSet"; "MagnetometerSet";
      "PIOS_WDG_UpdateFlag"; "vTaskDelay" ]%string.
Proof. by vm_compute. Qed.

Example bench_first_cycle_store :
  objs (at_cycle quiet_env power_on 1 0)
  = {| obj_Accels :=
         {| Accels.x := 0; Accels.y := -1; Accels.z := -8; Accels.temperature := 0 |};
       obj_Gyros := {| Gyros.x := 7; Gyros.y := 5; Gyros.z := 6 |};
       obj_GyrosBias := {| GyrosBias.x := 5; GyrosBias.y := 5; GyrosBias.z := 5 |};
       obj_BaroAltitude :=
         {| BaroAltitude.Altitude := 1; BaroAltitude.other := (25, 1013) |};
       obj_GPSPosition :=
         {| GPSPosition.Latitude := 0; GPSPosition.Longitude := 0;
            GPSPosition.Altitude := 0; GPSPosition.other := (9, 3) |};
       obj_HomeLocation :=
         {| HomeLocation.Latitude := 0; HomeLocation.Longitude := 0;
            HomeLocation.Altitude := 0; HomeLocation.Be := [# 26000; 400; 40000];
            HomeLocation.Set_ := HOMELOCATION_SET_TRUE;
            HomeLocation.other := 981 |};
       obj_Magnetometer :=
         {| Magnetometer.x := 400; Magnetometer.y := 0; Magnetometer.z := 800 |} |}%Z.
Proof. by vm_compute. Qed.

(** The bias is read afresh in every cycle: when an estimator changes it
    between the first and the second read, the second Gyroscope record
    follows. *)
Example bench_bias_updated :
  omap written_Gyros (log (at_cycle estimator_env power_on 2 0))
  = [ {| Gyros.x := 7; Gyros.y := 5; Gyros.z := 6 |};
      {| Gyros.x := 3; Gyros.y := 2; Gyros.z := 4 |} ]%Z.
Proof. by vm_compute. Qed.

(** The ticks at which the task runs again after each of its first three
    cycles, on the quiet and on the busy bench. *)
Example bench_resumptions :
  map (λ k, now (at_cycle quiet_env power_on k 10)) [0; 1; 2]%nat = [20; 40; 60]%Z
  ∧ map (λ k, now (at_cycle busy_env power_on k 10)) [0; 1; 2]%nat = [34; 64; 94]%Z.
Proof. by vm_compute. Qed.

Lemma bench_exec_registered :
  registered (run quiet_env 6 SensorsInitialize power_on).1
  = list_to_set initialised.
Proof.
  change (run quiet_env 6 SensorsInitialize power_on).1
    with (in_initialize quiet_env power_on 6).
  rewrite (registered_in_initialize quiet_env power_on 6) by done.
  cbn. by rewrite !(right_id_L ∅ (∪)).
Qed.

(** C3, counterexample.  On a fresh store on which every registration
    succeeds, GPS Position is not registered by [SensorsInitialize]. *)
Lemma bootstrap_leaves_out_gps_position :
  ¬ bootstrap_as_specified quiet_env power_on.
Proof.
  intros [Hreg _].
  specialize (Hreg GPSPositionHandle ltac:(compute_done) eq_refl).
  rewrite bench_exec_registered in Hreg.
  revert Hreg. compute_done.
Qed.

(** C3, witness: the fresh store of the bench, every registration
    succeeding. *)
Lemma bootstrap_registers_six_witness :
  (∀ obj, obj ∈ initialised → init_result quiet_env obj = 0%Z)
  ∧ (run quiet_env 6 SensorsInitialize power_on).2 = Some 0%Z
  ∧ registered (run quiet_env 6 SensorsInitialize power_on).1
    = list_to_set initialised ∪ ∅.
Proof.
  split; [done|].
  apply (bootstrap_registers_six quiet_env power_on 0). done.
Defined.

(** C7.  When the scheduler cannot create the task (xTaskCreate answers
    errCOULD_NOT_ALLOCATE_REQUIRED_MEMORY and leaves the handle NULL),
    [SensorsStart] still adds the NULL handle to the task monitor,
    registers the watchdog flag, and returns 0, the success code. *)
Theorem start_reports_success_when_spawn_fails :
  task_create no_memory_env = (errCOULD_NOT_ALLOCATE_REQUIRED_MEMORY, 0%Z)
  ∧ calls_since power_on (run no_memory_env 3 SensorsStart power_on).1
    = [ Called (xTaskCreate "Sensors" 385 3) (errCOULD_NOT_ALLOCATE_REQUIRED_MEMORY, 0%Z);
        Called (TaskMonitorAdd TASKINFO_RUNNING_SENSORS 0%Z) tt;
        Called (PIOS_WDG_RegisterFlag PIOS_WDG_SENSORS) tt ]
  ∧ (run no_memory_env 3 SensorsStart power_on).2 = Some 0%Z.
Proof.
  split; [done|].
  apply (SensorsStart_calls_and_result no_memory_env power_on 0).
Qed.

(** C1, witness: Gyro Bias holds (5, 5, 5) when the first cycle reads it,
    and the Gyroscope record published is (7, 5, 6). *)
Lemma gyros_published_bias_corrected_witness :
  exact_small F
  ∧ obj_GyrosBias (store_at_call quiet_env (at_cycle quiet_env power_on 0 1))
    = {| GyrosBias.x := 5%Z; GyrosBias.y := 5%Z; GyrosBias.z := 5%Z |}
  ∧ obj_Gyros (objs (at_cycle quiet_env power_on 0 3))
    = {| Gyros.x := 7%Z; Gyros.y := 5%Z; Gyros.z := 6%Z |}.
Proof.
  split; [exact Z_exact_small|]. split; [reflexivity|].
  destruct (gyros_published_bias_corrected quiet_env power_on 0)
    as (_ & _ & Hstore & Hfive).
  rewrite Hstore. apply Hfive; [exact Z_exact_small | reflexivity].
Defined.

(** C6, witness: nobody else writes Home Location, and after five cycles
    it is what it was after the first. *)
Lemma magnetometer_published_fixed_witness :
  leaves_HomeLocation quiet_env
  ∧ obj_HomeLocation (objs (at_cycle quiet_env power_on 5 0))
    = obj_HomeLocation (objs (at_cycle quiet_env power_on 1 0)).
Proof.
  split; [done|].
  apply (magnetometer_published_fixed quiet_env power_on 4). done.
Defined.

(** C8, counterexample.  With a 1 ms tick and one tick between calls, the
    task runs again at ticks 34 and 64 after its first two cycles: 30 ticks
    apart, not a whole number of 20-tick periods. *)
Lemma resumptions_drift :
  ¬ resumes_on_period_boundaries 20 busy_env power_on.
Proof.
  intros Hperiod. specialize (Hperiod 0%nat).
  replace (now (at_cycle busy_env power_on 1 10)) with 64%Z in Hperiod
    by by vm_compute.
  replace (now (at_cycle busy_env power_on 0 10)) with 34%Z in Hperiod
    by by vm_compute.
  destruct Hperiod as [q Hq]. lia.
Qed.

(** C8, witness: the busy bench; the first cycle starts at tick 4, its
    work takes 10 ticks, and the task runs again at tick 34 = 14 + 20. *)
Lemma suspension_is_a_relative_delay_witness :
  relative_delay busy_env
  ∧ (0 < portTICK_RATE_MS ≤ 20)%Z
  ∧ now (at_cycle busy_env power_on 1 0) = (4 + 10 + 20)%Z
  ∧ (20 `quot` portTICK_RATE_MS)%Z ≠ (SENSOR_PERIOD `quot` portTICK_RATE_MS)%Z.
Proof.
  split; [done|]. split; [done|].
  destruct (suspension_is_a_relative_delay busy_env power_on 0)
    as (_ & _ & _ & _ & Hrel & Hrate).
  split; [by rewrite Hrel | by apply Hrate].
Defined.
End bench.

(** ** Invariants of the task *)

Section invariants.
Context `{Headers}.
Implicit Types (env : Env) (w : World).

(** What every call of the task keeps, every run of the task keeps: within
    a cycle, *)
Lemma in_cycle_invariant (P : World → Prop) env w j :
  (∀ T (e : sensorsE T) w',
     is_task_call (Called e (handle env e w').1) → P w' → P (handle env e w').2) →
  (j ≤ 10)%nat → P w → P (in_cycle env w j).
Proof.
  intros Hcall Hj Hw.
  assert (Hstep : ∀ i, (i ≤ 10)%nat → P (in_cycle env w i)); [|by apply Hstep].
  clear j Hj. intros i. induction i as [|i IH]; intros Hi; [done|].
  specialize (IH ltac:(lia)).
  destruct i as [|i]; [rewrite cycle_call_1; by apply Hcall|].
  destruct i as [|i]; [rewrite cycle_call_2; by apply Hcall|].
  destruct i as [|i]; [rewrite cycle_call_3; by apply Hcall|].
  destruct i as [|i]; [rewrite cycle_call_4; by apply Hcall|].
  destruct i as [|i]; [rewrite cycle_call_5; by apply Hcall|].
  destruct i as [|i]; [rewrite cycle_call_6; by apply Hcall|].
  destruct i as [|i]; [rewrite cycle_call_7; by apply Hcall|].
  destruct i as [|i]; [rewrite cycle_call_8; by apply Hcall|].
  destruct i as [|i]; [rewrite cycle_call_9; by apply Hcall|].
  destruct i as [|i]; [rewrite cycle_call_10; by apply Hcall|].
  lia.
Qed.

(** in the start-up, *)
Lemma in_startup_invariant (P : World → Prop) env w j :
  (∀ T (e : sensorsE T) w',
     is_task_call (Called e (handle env e w').1) → P w' → P (handle env e w').2) →
  (j ≤ 4)%nat → P w → P (in_startup env w j).
Proof.
  intros Hcall Hj Hw.
  assert (Hstep : ∀ i, (i ≤ 4)%nat → P (in_startup env w i)); [|by apply Hstep].
  clear j Hj. intros i. induction i as [|i IH]; intros Hi; [done|].
  specialize (IH ltac:(lia)).
  destruct i as [|i]; [rewrite startup_call_1; by apply Hcall|].
  destruct i as [|i]; [rewrite startup_call_2; by apply Hcall|].
  destruct i as [|i]; [rewrite startup_call_3; by apply Hcall|].
  destruct i as [|i]; [rewrite startup_call_4; by apply Hcall|].
  lia.
Qed.

(** and at every step of the whole task. *)
Lemma task_invariant (P : World → Prop) env w fuel :
  (∀ T (e : sensorsE T) w',
     is_task_call (Called e (handle env e w').1) → P w' → P (handle env e w').2) →
  P w → P (run env fuel SensorsTask w).1.
Proof.
  intros Hcall Hw.
  destruct (decide (fuel < 4)%nat) as [Hlt|Hge].
  - rewrite run_task_in_startup by lia. apply in_startup_invariant; [done|lia|done].
  - destruct (steps_in_cycle fuel) as (k & j & Hj & ->); [lia|].
    fold (at_cycle env w k j). rewrite at_cycle_from_head by done.
    apply in_cycle_invariant; [done..|].
    clear Hge. induction k as [|k IH].
    + rewrite at_cycle_0. change (Nat.iter 0 _ ?x) with x.
      change (startup_end env w) with (in_startup env w 4).
      apply in_startup_invariant; [done|lia|done].
    + rewrite at_cycle_S. unfold cycle_end.
      apply in_cycle_invariant; [done|lia|done].
Qed.

(** A call that is not an initialiser leaves the registry alone. *)
Lemma registered_after_call env {T} (e : sensorsE T) w :
  registration (Called e (handle env e w).1) = None →
  registered (handle env e w).2 = registered w.
Proof. intros He. by destruct e. Qed.

Lemma registered_after_task env w fuel :
  registered (run env fuel SensorsTask w).1 = registered w.
Proof.
  apply (task_invariant (λ w', registered w' = registered w)); [|done].
  intros T e w' He <-. apply registered_after_call. by destruct e.
Qed.
End invariants.

(** ** Bootstrap, start and task together *)

Section module_level.
Context `{Headers}.
Implicit Types (env : Env) (w : World).

Lemma registered_in_initialize_any env w j :
  (j ≤ 6)%nat →
  registered (in_initialize env w j)
  = list_to_set (filter (λ obj, init_result env obj = 0%Z) (take j initialised))
    ∪ registered w.
Proof.
  intros Hj. induction j as [|j IH].
  - cbn. by rewrite (left_id_L ∅ (∪)).
  - destruct (lookup_lt_is_Some_2 initialised j) as [obj Hobj]; [cbn; lia|].
    rewrite (in_initialize_S _ _ _ _ Hobj), (take_S_r _ _ _ Hobj).
    rewrite filter_app, list_to_set_app_L, filter_cons, filter_nil.
    cbn. case_decide; cbn; rewrite IH, (right_id_L ∅ (∪)) by lia; [|done].
    rewrite (assoc_L (∪)). f_equal. apply (comm_L (∪)).
Qed.

(** X1.  [SensorsInitialize] makes its six registration calls whatever
    the earlier ones answered, and returns 0 whatever they answered: a
    failed registration is neither reported nor does it stop the later
    ones.  The objects registered afterwards are those of the six whose
    registration succeeded, and those registered before. *)
Theorem bootstrap_goes_on_after_failure env w extra :
  let r := run env (6 + extra) SensorsInitialize w in
  let six :=
    [ AccelsHandle; BaroAltitudeHandle; GyrosHandle; GyrosBiasHandle;
      MagnetometerHandle; RevoCalibrationHandle ] in
  calls_since w r.1
    = (λ obj, Called (UAVObjInitialize obj) (init_result env obj)) <$> six
  ∧ r.2 = Some 0%Z
  ∧ registered r.1
    = list_to_set (filter (λ obj, init_result env obj = 0%Z) six) ∪ registered w.
Proof.
  intros r six. subst r six. rewrite SensorsInitialize_returned.
  change (run env 6 SensorsInitialize w).1 with (in_initialize env w 6).
  split; [|split].
  - by rewrite (calls_since_log _ _ _ (log_in_initialize env w 6 ltac:(lia))).
  - apply SensorsInitialize_result.
  - by rewrite (registered_in_initialize_any env w 6).
Qed.

Lemma in_start_3 env w :
  in_start env w 3
  = (handle env (PIOS_WDG_RegisterFlag PIOS_WDG_SENSORS)
       (handle env (TaskMonitorAdd TASKINFO_RUNNING_SENSORS (task_create env).2)
          (handle env (xTaskCreate "Sensors" 385 TASK_PRIORITY) w).2).2).2.
Proof. by destruct env as [others ticks results [code handle_left] wake]. Qed.

Lemma registered_in_start env w : registered (in_start env w 3) = registered w.
Proof. by rewrite in_start_3, !registered_after_call. Qed.

Lemma SensorsStart_returned env w extra :
  run env (3 + extra) SensorsStart w = run env 3 SensorsStart w.
Proof.
  apply run_returned.
  by destruct env as [others ticks results [code handle_left] wake].
Qed.

(** X2.  Whatever xTaskCreate answers, [SensorsStart] makes the same
    three calls and returns 0: it asks for a task named "Sensors" with a
    stack of 385 words at priority tskIDLE_PRIORITY + 3, hands to the task
    monitor the handle that xTaskCreate left behind, and registers the
    watchdog flag of the sensors.  It registers no object with the store. *)
Theorem start_never_fails env w extra :
  let r := run env (3 + extra) SensorsStart w in
  calls_since w r.1
    = [ Called (xTaskCreate "Sensors" 385 (tskIDLE_PRIORITY + 3)%Z) (task_create env);
        Called (TaskMonitorAdd TASKINFO_RUNNING_SENSORS (task_create env).2) tt;
        Called (PIOS_WDG_RegisterFlag PIOS_WDG_SENSORS) tt ]
  ∧ r.2 = Some 0%Z
  ∧ registered r.1 = registered w.
Proof.
  intros r. subst r.
  destruct (SensorsStart_calls_and_result env w 0) as [Hcalls Hret].
  rewrite SensorsStart_returned.
  split; [exact Hcalls|]. split; [exact Hret|].
  apply registered_in_start.
Qed.
End module_level.

(** ** The task left alone *)

Section steady_state.
Context `{Headers}.
Implicit Types (env : Env) (w : World).

Lemma store_at_call_undisturbed env w :
  undisturbed env → store_at_call env w = objs w.
Proof. intros Hund. apply Hund. Qed.

Lemma objs_after_handle env {T} (e : sensorsE T) w :
  undisturbed env → objs (handle env e w).2 = store_effect e (objs w).
Proof.
  intros Hund. destruct e; cbn; rewrite ?Hund; try done.
  case_decide; cbn; apply Hund.
Qed.

Lemma objs_in_cycle_1 env w :
  undisturbed env → objs (in_cycle env w 1) = put_Accels accels_fixed (objs w).
Proof. intros Hund. by rewrite cycle_call_1, objs_after_handle. Qed.

Lemma objs_in_cycle_3 env w :
  undisturbed env →
  objs (in_cycle env w 3)
  = put_Gyros (bias_corrected (obj_GyrosBias (objs w)))
      (put_Accels accels_fixed (objs w)).
Proof.
  intros Hund.
  rewrite cycle_call_3, objs_after_handle, cycle_call_2, objs_after_handle by done.
  by rewrite store_at_call_undisturbed, objs_in_cycle_1.
Qed.

Lemma objs_in_cycle_5 env w :
  undisturbed env →
  objs (in_cycle env w 5)
  = put_BaroAltitude (baro_fixed (obj_BaroAltitude (objs w)))
      (put_Gyros (bias_corrected (obj_GyrosBias (objs w)))
         (put_Accels accels_fixed (objs w))).
Proof.
  intros Hund.
  rewrite cycle_call_5, objs_after_handle, cycle_call_4, objs_after_handle by done.
  by rewrite store_at_call_undisturbed, objs_in_cycle_3.
Qed.

Lemma objs_in_cycle_7 env w :
  undisturbed env →
  objs (in_cycle env w 7)
  = put_GPSPosition (gps_fixed (obj_GPSPosition (objs w)))
      (put_BaroAltitude (baro_fixed (obj_BaroAltitude (objs w)))
         (put_Gyros (bias_corrected (obj_GyrosBias (objs w)))
            (put_Accels accels_fixed (objs w)))).
Proof.
  intros Hund.
  rewrite cycle_call_7, objs_after_handle, cycle_call_6, objs_after_handle by done.
  by rewrite store_at_call_undisturbed, objs_in_cycle_5.
Qed.

(** One cycle, left alone, sets everything but Gyro Bias and Home
    Location. *)
Lemma objs_cycle_end env w :
  undisturbed env →
  objs (cycle_end env w)
  = put_HomeLocation (obj_HomeLocation (objs w)) (settled (objs w)).
Proof.
  intros Hund. unfold cycle_end.
  rewrite cycle_call_10, objs_after_handle, cycle_call_9, objs_after_handle,
    cycle_call_8, objs_after_handle by done.
  by rewrite objs_in_cycle_7.
Qed.

Lemma objs_startup_end env w :
  undisturbed env →
  objs (startup_end env w)
  = put_HomeLocation (home_seed (obj_HomeLocation (objs w))) (objs w).
Proof.
  intros Hund. change (startup_end env w) with (in_startup env w 4).
  rewrite startup_call_4, objs_after_handle, startup_call_3, objs_after_handle,
    startup_call_2, objs_after_handle, startup_call_1, objs_after_handle by done.
  by rewrite store_at_call_undisturbed, objs_after_handle.
Qed.

(** X4.  When no other task writes the store, the store is the same after
    every cycle, from the first on: the Accelerometer and Magnetometer
    constants, the Gyroscope constants corrected by the Gyro Bias record,
    which the task leaves as it found it, Barometric Altitude and GPS
    Position with their altitude and position overwritten, and the seeded
    Home Location.  Nothing accumulates from cycle to cycle. *)
Theorem store_settles_after_first_cycle env w n :
  undisturbed env →
  objs (at_cycle env w (S n) 0)
  = {| obj_Accels := accels_fixed;
       obj_Gyros := bias_corrected (obj_GyrosBias (objs w));
       obj_GyrosBias := obj_GyrosBias (objs w);
       obj_BaroAltitude := baro_fixed (obj_BaroAltitude (objs w));
       obj_GPSPosition := gps_fixed (obj_GPSPosition (objs w));
       obj_HomeLocation := home_seed (obj_HomeLocation (objs w));
       obj_Magnetometer := mag_fixed |}.
Proof.
  intros Hund. change (objs (at_cycle env w (S n) 0) = settled (objs w)).
  induction n as [|n IH].
  - rewrite at_cycle_S, at_cycle_0. change (Nat.iter 0 _ ?x) with x.
    by rewrite objs_cycle_end, objs_startup_end.
  - by rewrite at_cycle_S, objs_cycle_end, IH.
Qed.
End steady_state.

(** ** What the task does once, and what it does every cycle *)

Section once_and_again.
Context `{Headers}.
Implicit Types (env : Env) (w : World).

Lemma filter_take_nil {A} (P : A → Prop) `{!∀ x, Decision (P x)} (l : list A) j :
  filter P l = [] → filter P (take j l) = [].
Proof.
  revert j; induction l as [|a l IH]; intros [|j] Hl; try done.
  cbn [take]. rewrite filter_cons in Hl |- *.
  destruct (decide (P a)); [done|]. by apply IH.
Qed.

Lemma startup_calls_are_startup env w :
  filter (λ c, is_startup_call c) (startup_calls env w) = startup_calls env w.
Proof. reflexivity. Qed.

Lemma cycle_calls_are_not_startup env w :
  filter (λ c, is_startup_call c) (cycle_calls env w) = [].
Proof. reflexivity. Qed.

Lemma cycles_calls_are_not_startup env w a k :
  filter (λ c, is_startup_call c) (cycles_calls env w a k) = [].
Proof.
  induction k as [|k IH]; [done|].
  cbn [cycles_calls]. by rewrite filter_app, IH, cycle_calls_are_not_startup.
Qed.

(** X3.  Whatever the number of steps, the calls that the task makes
    before its loop are made once, in the order of the source, and never
    again: the alarm of the sensors is cleared, Home Location is read and
    written back, the tick count is read.  No cycle of the loop makes any
    of the four. *)
Theorem startup_calls_made_once env w fuel :
  let made :=
    filter (λ c, is_startup_call c) (calls_since w (run env fuel SensorsTask w).1) in
  made = take fuel (startup_calls env w)
  ∧ call_name <$> made
    = take fuel [ "AlarmsClear"; "HomeLocationGet"; "HomeLocationSet";
                  "xTaskGetTickCount" ]%string.
Proof.
  intros made.
  assert (Hmade : made = take fuel (startup_calls env w)).
  { subst made. destruct (decide (fuel < 4)%nat) as [Hlt|Hge].
    - rewrite run_task_in_startup by lia.
      rewrite (calls_since_log _ _ _ (log_in_startup env w fuel ltac:(lia))).
      do 4 (destruct fuel as [|fuel]; [reflexivity|]). lia.
    - destruct (steps_in_cycle fuel) as (k & j & Hj & ->); [lia|].
      fold (at_cycle env w k j). rewrite calls_to_cycle by done.
      rewrite !filter_app, startup_calls_are_startup, cycles_calls_are_not_startup.
      rewrite filter_take_nil by apply cycle_calls_are_not_startup.
      rewrite !app_nil_r. by rewrite take_ge by (cbn; lia). }
  split; [done|]. rewrite Hmade, fmap_take. reflexivity.
Qed.
End once_and_again.

(** ** The records the module registers and the records it uses *)

Section registry_and_use.
Context `{Headers}.
Implicit Types (env : Env) (w : World).

Lemma registered_module_run env w fuel :
  registered (module_run env w fuel)
  = list_to_set (filter (λ obj, init_result env obj = 0%Z) initialised) ∪ registered w.
Proof.
  unfold module_run. cbn zeta.
  change (run env 6 SensorsInitialize w).1 with (in_initialize env w 6).
  change (run env 3 SensorsStart ?x).1 with (in_start env x 3).
  case_decide; rewrite ?registered_after_task, registered_in_start;
    by rewrite (registered_in_initialize_any env w 6).
Qed.

Lemma length_omap_cycles {A} (f : Call → option A) env w a k :
  (∀ w', length (omap f (cycle_calls env w')) = 1%nat) →
  length (omap f (cycles_calls env w a k)) = k.
Proof.
  intros Hc. induction k as [|k IH]; [done|].
  cbn [cycles_calls]. rewrite omap_app, length_app, IH, Hc. lia.
Qed.

Lemma calls_of_module env w n :
  (task_create env).1 = pdPASS →
  let started := in_start env (in_initialize env w 6) 3 in
  calls_since w (module_run env w (4 + 11 * n))
  = ((λ obj, Called (UAVObjInitialize obj) (init_result env obj)) <$> initialised)
    ++ [ Called (xTaskCreate "Sensors" 385 TASK_PRIORITY) (task_create env);
         Called (TaskMonitorAdd TASKINFO_RUNNING_SENSORS (task_create env).2) tt;
         Called (PIOS_WDG_RegisterFlag PIOS_WDG_SENSORS) tt ]
    ++ startup_calls env started ++ cycles_calls env started 0 n.
Proof.
  intros Hpass started. apply calls_since_log.
  unfold module_run. cbn zeta. rewrite decide_True by done.
  change (run env 6 SensorsInitialize w).1 with (in_initialize env w 6).
  change (run env 3 SensorsStart ?x).1 with (in_start env x 3).
  fold started.
  replace (4 + 11 * n)%nat with (4 + 11 * n + 0)%nat by lia.
  fold (at_cycle env started n 0).
  rewrite log_at_head. subst started.
  rewrite log_in_start, (log_in_initialize env w 6) by lia.
  by rewrite <- !app_assoc.
Qed.

(** X8.  The module as a whole, MODULE_INITCALL(SensorsInitialize,
    SensorsStart) and then the task: whatever the initialisers and
    xTaskCreate answer and however long the task runs, the objects
    registered are those of the six of [SensorsInitialize] whose
    registration succeeded, and those registered before.  So the module
    never registers GPS Position or Home Location; yet, when the task was
    created, it has written Home Location once and GPS Position once per
    cycle after [n] cycles. *)
Theorem module_uses_records_it_never_registers env w :
  (∀ fuel,
     registered (module_run env w fuel)
     = list_to_set
         (filter (λ obj, init_result env obj = 0%Z)
            [ AccelsHandle; BaroAltitudeHandle; GyrosHandle; GyrosBiasHandle;
              MagnetometerHandle; RevoCalibrationHandle ])
       ∪ registered w
     ∧ (GPSPositionHandle ∈ registered (module_run env w fuel) →
        GPSPositionHandle ∈ registered w)
     ∧ (HomeLocationHandle ∈ registered (module_run env w fuel) →
        HomeLocationHandle ∈ registered w))
  ∧ ((task_create env).1 = pdPASS →
     ∀ n,
       let calls := calls_since w (module_run env w (4 + 11 * n)) in
       length (omap written_HomeLocation calls) = 1%nat
       ∧ length (omap written_GPSPosition calls) = n).
Proof.
  split.
  - intros fuel. rewrite registered_module_run.
    split; [done|].
    assert (Hgps : GPSPositionHandle ∉ initialised) by compute_done.
    assert (Hhome : HomeLocationHandle ∉ initialised) by compute_done.
    split; intros [Hin|Hin]%elem_of_union; try done;
      by apply elem_of_list_to_set, list_elem_of_filter in Hin as [_ Hin].
  - intros Hpass n calls. subst calls.
    rewrite (calls_of_module env w n Hpass).
    split.
    + rewrite !omap_app, !length_app.
      rewrite omap_cycles_nil by done. reflexivity.
    + rewrite !omap_app, !length_app.
      rewrite length_omap_cycles by done. reflexivity.
Qed.
End registry_and_use.

(** ** The pace of the loop *)

Section pace.
Context `{Headers}.
Implicit Types (env : Env) (w : World).

(** From one head of the loop to the next. *)
Lemma now_next_head env w k :
  now (at_cycle env w (S k) 0)
  = vTaskDelay_wake env
      (now (at_cycle env w k 0) + Z.of_nat (work env (at_cycle env w k 0)))%Z
      (20 `quot` portTICK_RATE_MS)%Z.
Proof.
  rewrite at_cycle_S. unfold cycle_end.
  by rewrite cycle_call_10, now_after_delay, tick_at_suspension.
Qed.

Lemma work_without_elapse env w :
  (∀ i, elapsed env i = 0%nat) → work env w = 0%nat.
Proof.
  intros Hnone. unfold work. cbn [seq map sum_list sum_list_with id].
  rewrite !Hnone. lia.
Qed.

Lemma total_work_without_elapse env w n :
  (∀ i, elapsed env i = 0%nat) → total_work env w n = 0%nat.
Proof.
  intros Hnone. induction n as [|n IH]; [done|].
  cbn [total_work]. by rewrite IH, work_without_elapse.
Qed.

(** X6.  Under the relative delay of FreeRTOS the [n]-th cycle starts
    [n] delays of 20 / portTICK_RATE_MS ticks after the first, plus all the
    ticks that went by in the work of the cycles before it: the lateness
    adds up from cycle to cycle and is never made up.  The loop is on
    schedule only when its work takes no tick at all. *)
Theorem cycles_are_late_by_their_work env w n :
  relative_delay env →
  let ticks := (20 `quot` portTICK_RATE_MS)%Z in
  let first := now (at_cycle env w 0 0) in
  now (at_cycle env w n 0)
    = (first + Z.of_nat n * ticks + Z.of_nat (total_work env w n))%Z
  ∧ (first + Z.of_nat n * ticks ≤ now (at_cycle env w n 0))%Z
  ∧ ((∀ i, elapsed env i = 0%nat) →
     now (at_cycle env w n 0) = (first + Z.of_nat n * ticks)%Z).
Proof.
  intros Hrel ticks first. subst ticks first.
  assert (Hnow : now (at_cycle env w n 0)
                 = (now (at_cycle env w 0 0)
                    + Z.of_nat n * (20 `quot` portTICK_RATE_MS)
                    + Z.of_nat (total_work env w n))%Z).
  { induction n as [|n IH]; [cbn [total_work]; lia|].
    rewrite now_next_head, Hrel, IH. cbn [total_work]. lia. }
  split; [done|]. split; [lia|].
  intros Hnone. rewrite Hnow, total_work_without_elapse by done. lia.
Qed.

(** X7.  The delay that every cycle asks for is 20 ms in whole ticks,
    rounded down: never more than 20 ms, and less than one tick short of
    it.  With a tick longer than 20 ms the task asks for no delay at all:
    under the relative delay it is ready again at the very tick of its
    call, so that the loop leaves no time to the tasks below it. *)
Theorem delay_is_rounded_down env w n :
  (0 < portTICK_RATE_MS)%Z →
  let ticks := (20 `quot` portTICK_RATE_MS)%Z in
  omap delay_asked (calls_since w (at_cycle env w n 0)) = replicate n ticks
  ∧ (ticks * portTICK_RATE_MS ≤ 20 < (ticks + 1) * portTICK_RATE_MS)%Z
  ∧ ((20 < portTICK_RATE_MS)%Z →
     ticks = 0%Z
     ∧ (relative_delay env →
        ∀ k, now (at_cycle env w (S k) 0) = tick_at_call env (at_cycle env w k 9))).
Proof.
  intros Hrate ticks. subst ticks.
  split; [by apply published_every_cycle|].
  rewrite Z.quot_div_nonneg by lia.
  pose proof (Z_div_mod_eq_full 20 portTICK_RATE_MS) as Hdiv.
  pose proof (Z.mod_pos_bound 20 portTICK_RATE_MS Hrate) as Hmod.
  split; [nia|].
  intros Hlong.
  assert (Hzero : (20 `div` portTICK_RATE_MS = 0)%Z) by (apply Z.div_small; lia).
  split; [done|].
  intros Hrel k.
  rewrite now_next_head, Hrel, (at_cycle_from_head _ _ _ 9), tick_at_suspension by lia.
  rewrite Z.quot_div_nonneg, Hzero by lia. lia.
Qed.
End pace.

(** ** What the task reads and never writes *)

Section gyro_bias.
Context `{Headers}.
Implicit Types (env : Env) (w : World).

(** No call of sensors.c writes Gyro Bias. *)
Lemma bias_after_handle env {T} (e : sensorsE T) w :
  (∀ i o, obj_GyrosBias (preempt env i o) = obj_GyrosBias o) →
  obj_GyrosBias (objs (handle env e w).2) = obj_GyrosBias (objs w).
Proof.
  intros Henv. destruct e; cbn; try apply Henv.
  case_decide; apply Henv.
Qed.

Lemma bias_at_call env w :
  (∀ i o, obj_GyrosBias (preempt env i o) = obj_GyrosBias o) →
  obj_GyrosBias (store_at_call env w) = obj_GyrosBias (objs w).
Proof. intros Henv. apply Henv. Qed.

(** X9.  The task reads Gyro Bias in every cycle and never writes it: when
    no other task writes it either, the record is after any number of
    steps what it was when the task started, and every cycle publishes the
    same Gyroscope record, the constants corrected by that bias. *)
Theorem gyro_bias_is_only_read env w :
  (∀ i o, obj_GyrosBias (preempt env i o) = obj_GyrosBias o) →
  (∀ fuel, obj_GyrosBias (objs (run env fuel SensorsTask w).1) = obj_GyrosBias (objs w))
  ∧ (∀ n, omap written_Gyros (calls_since w (at_cycle env w n 0))
          = replicate n (bias_corrected (obj_GyrosBias (objs w)))).
Proof.
  intros Henv.
  assert (Hkept : ∀ fuel,
    obj_GyrosBias (objs (run env fuel SensorsTask w).1) = obj_GyrosBias (objs w)).
  { intros fuel.
    apply (task_invariant (λ w', obj_GyrosBias (objs w') = obj_GyrosBias (objs w)));
      [|done].
    intros T e w' _ <-. by apply bias_after_handle. }
  split; [done|].
  intros n. rewrite calls_to_head, omap_app.
  change (omap written_Gyros (startup_calls env w)) with (@nil GyrosData).
  cbn [app]. induction n as [|n IH]; [done|].
  cbn [cycles_calls]. rewrite omap_app, IH, replicate_S_end. f_equal.
  change (omap written_Gyros (cycle_calls env ?x))
    with [bias_corrected (obj_GyrosBias (store_at_call env (in_cycle env x 1)))].
  rewrite bias_at_call, <- at_cycle_from_head by (done || lia).
  unfold at_cycle. by rewrite Hkept.
Qed.
End gyro_bias.

(** ** The data of a run and the time of a run *)

Section data_and_time.
Context `{Headers}.
Implicit Types (env : Env) (w : World).

Lemma same_data_length w1 w2 :
  same_data w1 w2 → length (log w1) = length (log w2).
Proof.
  intros [_ Hl]. apply (f_equal length) in Hl. by rewrite !length_fmap in Hl.
Qed.

Lemma store_at_call_same env1 env2 w1 w2 :
  same_writers env1 env2 → same_data w1 w2 →
  store_at_call env1 w1 = store_at_call env2 w2.
Proof.
  intros Hw Hd. pose proof (same_data_length _ _ Hd) as Hlen.
  destruct Hd as [Ho _].
  change (preempt env1 (length (log w1)) (objs w1)
          = preempt env2 (length (log w2)) (objs w2)).
  by rewrite Hw, Ho, Hlen.
Qed.

(** The same call, made by the task in two worlds with the same data,
    leaves the same data. *)
Lemma handle_same_data env1 env2 {T} (e : sensorsE T) w1 w2 :
  same_writers env1 env2 → same_data w1 w2 →
  is_task_call (Called e (handle env1 e w1).1) →
  same_data (handle env1 e w1).2 (handle env2 e w2).2.
Proof.
  intros Hw Hd He.
  pose proof (store_at_call_same _ _ _ _ Hw Hd) as Hs.
  change (objs (arrive env1 w1) = objs (arrive env2 w2)) in Hs.
  split.
  - destruct e; try done; cbn in Hs |- *; by rewrite ?Hs.
  - rewrite !log_handle, !fmap_app. destruct Hd as [_ ->]. f_equal.
    cbn [fmap list_fmap]. f_equal.
    destruct e; try done; cbn in Hs |- *; by rewrite ?Hs.
Qed.

Lemma in_startup_same_data env1 env2 w1 w2 j :
  same_writers env1 env2 → same_data w1 w2 → (j ≤ 4)%nat →
  same_data (in_startup env1 w1 j) (in_startup env2 w2 j).
Proof.
  intros Hw Hd Hj.
  assert (H1 : same_data (in_startup env1 w1 1) (in_startup env2 w2 1))
    by (rewrite !startup_call_1; by apply handle_same_data).
  assert (H2 : same_data (in_startup env1 w1 2) (in_startup env2 w2 2))
    by (rewrite !startup_call_2; by apply handle_same_data).
  assert (H3 : same_data (in_startup env1 w1 3) (in_startup env2 w2 3)).
  { rewrite !startup_call_3, (store_at_call_same env1 env2 _ _ Hw H1).
    by apply handle_same_data. }
  assert (H4 : same_data (in_startup env1 w1 4) (in_startup env2 w2 4))
    by (rewrite !startup_call_4; by apply handle_same_data).
  do 5 (destruct j as [|j]; [done|]). lia.
Qed.

Lemma in_cycle_same_data env1 env2 w1 w2 j :
  same_writers env1 env2 → same_data w1 w2 → (j ≤ 10)%nat →
  same_data (in_cycle env1 w1 j) (in_cycle env2 w2 j).
Proof.
  intros Hw Hd Hj.
  assert (H1 : same_data (in_cycle env1 w1 1) (in_cycle env2 w2 1))
    by (rewrite !cycle_call_1; by apply handle_same_data).
  assert (H2 : same_data (in_cycle env1 w1 2) (in_cycle env2 w2 2))
    by (rewrite !cycle_call_2; by apply handle_same_data).
  assert (H3 : same_data (in_cycle env1 w1 3) (in_cycle env2 w2 3)).
  { rewrite !cycle_call_3, (store_at_call_same env1 env2 _ _ Hw H1).
    by apply handle_same_data. }
  assert (H4 : same_data (in_cycle env1 w1 4) (in_cycle env2 w2 4))
    by (rewrite !cycle_call_4; by apply handle_same_data).
  assert (H5 : same_data (in_cycle env1 w1 5) (in_cycle env2 w2 5)).
  { rewrite !cycle_call_5, (store_at_call_same env1 env2 _ _ Hw H3).
    by apply handle_same_data. }
  assert (H6 : same_data (in_cycle env1 w1 6) (in_cycle env2 w2 6))
    by (rewrite !cycle_call_6; by apply handle_same_data).
  assert (H7 : same_data (in_cycle env1 w1 7) (in_cycle env2 w2 7)).
  { rewrite !cycle_call_7, (store_at_call_same env1 env2 _ _ Hw H5).
    by apply handle_same_data. }
  assert (H8 : same_data (in_cycle env1 w1 8) (in_cycle env2 w2 8))
    by (rewrite !cycle_call_8; by apply handle_same_data).
  assert (H9 : same_data (in_cycle env1 w1 9) (in_cycle env2 w2 9))
    by (rewrite !cycle_call_9; by apply handle_same_data).
  assert (H10 : same_data (in_cycle env1 w1 10) (in_cycle env2 w2 10))
    by (rewrite !cycle_call_10; by apply handle_same_data).
  do 11 (destruct j as [|j]; [done|]). lia.
Qed.

Lemma at_head_same_data env1 env2 w1 w2 k :
  same_writers env1 env2 → same_data w1 w2 →
  same_data (at_cycle env1 w1 k 0) (at_cycle env2 w2 k 0).
Proof.
  intros Hw Hd. induction k as [|k IH].
  - rewrite !at_cycle_0. change (Nat.iter 0 _ ?x) with x.
    change (startup_end ?e ?x) with (in_startup e x 4).
    by apply in_startup_same_data.
  - rewrite !at_cycle_S. unfold cycle_end. by apply in_cycle_same_data.
Qed.

(** X5.  What the task does to the store and which calls it makes, with
    which records, does not depend on time: not on the tick at which it is
    started, nor on the ticks that go by between its calls, nor on the
    rule by which the scheduler wakes it.  Two runs in which the other
    tasks write the same things leave the same store and the same log, the
    tick count read before the loop apart, which is never used. *)
Theorem published_data_is_independent_of_time env1 env2 w1 w2 fuel :
  (∀ i o, preempt env1 i o = preempt env2 i o) →
  objs w1 = objs w2 →
  data_of <$> log w1 = data_of <$> log w2 →
  let r1 := (run env1 fuel SensorsTask w1).1 in
  let r2 := (run env2 fuel SensorsTask w2).1 in
  objs r1 = objs r2 ∧ data_of <$> log r1 = data_of <$> log r2.
Proof.
  intros Hw Ho Hl r1 r2. subst r1 r2.
  assert (Hd : same_data w1 w2) by done.
  change (same_data (run env1 fuel SensorsTask w1).1 (run env2 fuel SensorsTask w2).1).
  destruct (decide (fuel < 4)%nat) as [Hlt|Hge].
  - rewrite !run_task_in_startup by lia. apply in_startup_same_data; [done..|lia].
  - destruct (steps_in_cycle fuel) as (k & j & Hj & ->); [lia|].
    fold (at_cycle env1 w1 k j) (at_cycle env2 w2 k j).
    rewrite (at_cycle_from_head env1 w1 k j), (at_cycle_from_head env2 w2 k j) by done.
    apply in_cycle_same_data; [done| |done].
    by apply at_head_same_data.
Qed.
End data_and_time.

(** ** The benches, run further *)

Section bench_again.
#[local] Existing Instance bench.

(** X4, witness: on the quiet bench the Gyroscope record in the store
    after three cycles is (7, 5, 6), as after the first. *)
Lemma store_settles_after_first_cycle_witness :
  undisturbed quiet_env
  ∧ obj_Gyros (objs (at_cycle quiet_env power_on 3 0))
    = {| Gyros.x := 7%Z; Gyros.y := 5%Z; Gyros.z := 6%Z |}.
Proof.
  split; [done|].
  by rewrite (store_settles_after_first_cycle quiet_env power_on 2).
Defined.

(** X5, witness: the quiet bench from tick 0 and the busy bench from tick
    1000 leave the same store after 30 steps, at different ticks. *)
Lemma published_data_is_independent_of_time_witness :
  (∀ i o, preempt quiet_env i o = preempt busy_env i o)
  ∧ objs power_on = objs late_power_on
  ∧ data_of <$> log power_on = data_of <$> log late_power_on
  ∧ objs (run quiet_env 30 SensorsTask power_on).1
    = objs (run busy_env 30 SensorsTask late_power_on).1
  ∧ now (run quiet_env 30 SensorsTask power_on).1 = 40%Z
  ∧ now (run busy_env 30 SensorsTask late_power_on).1 = 1068%Z.
Proof.
  split; [done|]. split; [done|]. split; [done|].
  split; [|by vm_compute].
  by apply (published_data_is_independent_of_time quiet_env busy_env
              power_on late_power_on 30).
Defined.

(** X6, witness: on the busy bench the fourth cycle starts at tick 94: the
    first at tick 4, three delays of 20 ticks, and 30 ticks of work. *)
Lemma cycles_are_late_by_their_work_witness :
  relative_delay busy_env
  ∧ now (at_cycle busy_env power_on 3 0) = (4 + 3 * 20 + 30)%Z.
Proof.
  split; [done|].
  destruct (cycles_are_late_by_their_work busy_env power_on 3) as [Hnow _]; [done|].
  rewrite Hnow. by vm_compute.
Defined.

(** X8, witness: on the quiet bench the task is created; after five
    cycles GPS Position has been written five times and is not
    registered. *)
Lemma module_uses_records_it_never_registers_witness :
  (task_create quiet_env).1 = pdPASS
  ∧ length (omap written_GPSPosition
              (calls_since power_on (module_run quiet_env power_on (4 + 11 * 5))))
    = 5%nat
  ∧ GPSPositionHandle ∉ registered (module_run quiet_env power_on (4 + 11 * 5)).
Proof.
  split; [done|].
  destruct (module_uses_records_it_never_registers quiet_env power_on) as [Hreg Huse].
  split.
  - by apply (Huse eq_refl 5%nat).
  - intros Hin. by apply (Hreg (4 + 11 * 5)%nat) in Hin.
Defined.

(** X9, witness: on the quiet bench nobody writes Gyro Bias, and the two
    first cycles both publish (7, 5, 6). *)
Lemma gyro_bias_is_only_read_witness :
  (∀ i o, obj_GyrosBias (preempt quiet_env i o) = obj_GyrosBias o)
  ∧ omap written_Gyros (calls_since power_on (at_cycle quiet_env power_on 2 0))
    = [ {| Gyros.x := 7%Z; Gyros.y := 5%Z; Gyros.z := 6%Z |};
        {| Gyros.x := 7%Z; Gyros.y := 5%Z; Gyros.z := 6%Z |} ].
Proof.
  split; [done|].
  destruct (gyro_bias_is_only_read quiet_env power_on) as [_ Hpub]; [done|].
  by rewrite Hpub.
Defined.
End bench_again.

Section coarse_bench_run.
#[local] Existing Instance coarse_bench.

(** X7, witness: with a tick of 50 ms the three first cycles ask for a
    delay of 0 ticks, and the second cycle starts at tick 14, the tick at
    which the first called vTaskDelay. *)
Lemma delay_is_rounded_down_witness :
  (0 < portTICK_RATE_MS)%Z
  ∧ (20 < portTICK_RATE_MS)%Z
  ∧ relative_delay coarse_env
  ∧ omap delay_asked (calls_since coarse_power_on (at_cycle coarse_env coarse_power_on 3 0))
    = [0; 0; 0]%Z
  ∧ now (at_cycle coarse_env coarse_power_on 1 0) = 14%Z
  ∧ tick_at_call coarse_env (at_cycle coarse_env coarse_power_on 0 9) = 14%Z.
Proof.
  split; [done|]. split; [done|]. split; [done|].
  destruct (delay_is_rounded_down coarse_env coarse_power_on 3)
    as (Hasked & _ & Hlong); [done|].
  destruct Hlong as [_ Hsame]; [done|].
  split; [by rewrite Hasked|].
  assert (Hrel : relative_delay coarse_env) by (intros t n; reflexivity).
  split; [etrans; [exact (Hsame Hrel 0%nat)|]|]; by vm_compute.
Defined.
End coarse_bench_run.

(** ** The ticks of the watchdog refreshes *)

Section refresh_times.
Context `{Headers}.
Implicit Types (env : Env) (w : World).

Lemma length_log_next_head env w k :
  length (log (at_cycle env w (S k) 0)) = (length (log (at_cycle env w k 0)) + 10)%nat.
Proof. rewrite at_cycle_S. unfold cycle_end. by rewrite length_log_in_cycle. Qed.

(** The refresh is made when the nine first calls of the cycle have taken
    their time. *)
Lemma refresh_tick_eq env w k :
  refresh_tick env w k
  = (now (at_cycle env w k 0)
     + Z.of_nat (sum_list (map (λ i, elapsed env (length (log (at_cycle env w k 0)) + i))
                             (seq 0 9))))%Z.
Proof.
  unfold refresh_tick. rewrite (at_cycle_from_head _ _ _ 8) by lia.
  rewrite tick_at_call_eq, length_log_in_cycle by lia.
  rewrite !now_in_cycle_S by lia.
  change (now (in_cycle env ?x 0)) with (now x).
  cbn [seq map sum_list sum_list_with id]. lia.
Qed.

Lemma refresh_tick_next env w k :
  relative_delay env →
  refresh_tick env w (S k)
  = (refresh_tick env w k + 20 `quot` portTICK_RATE_MS
     + Z.of_nat (between_refreshes env w k))%Z.
Proof.
  intros Hrel. unfold between_refreshes.
  rewrite (at_cycle_from_head _ _ _ 8), length_log_in_cycle by lia.
  rewrite !refresh_tick_eq, now_next_head, Hrel, length_log_next_head.
  unfold work. cbn [seq map sum_list sum_list_with id].
  rewrite <- !Nat.add_assoc. cbn [Nat.add]. lia.
Qed.

(** C9, as amended.  In every cycle [k] the watchdog flag of this task is
    refreshed exactly once: it is the ninth of the ten calls of the cycle,
    after the five publishes and before the suspension, and nothing is
    called between the suspension and the next cycle; after [n] cycles the
    flag has been refreshed exactly [n] times.  So the flag is refreshed
    once per cycle of the loop.  Under the relative delay of FreeRTOS the
    next refresh comes 20 / portTICK_RATE_MS ticks later plus the ticks
    that go by before the ten calls made in between: never sooner than
    that delay, and later than it as soon as these calls take a tick. *)
Theorem watchdog_refreshed_once_per_cycle env w k n :
  let ticks := (20 `quot` portTICK_RATE_MS)%Z in
  map call_name (calls_since (at_cycle env w k 0) (at_cycle env w k 10))
    = [ "AccelsSet"; "GyrosBiasGet"; "GyrosSet"; "BaroAltitudeGet";
        "BaroAltitudeSet"; "GPSPositionGet"; "GPSPositionSet";
        "MagnetometerSet"; "PIOS_WDG_UpdateFlag"; "vTaskDelay" ]%string
  ∧ calls_since (at_cycle env w k 8) (at_cycle env w k 9)
    = [Called (PIOS_WDG_UpdateFlag PIOS_WDG_SENSORS) tt]
  ∧ calls_since (at_cycle env w k 10) (at_cycle env w (S k) 0) = []
  ∧ omap refreshed_flag (calls_since w (at_cycle env w n 0))
    = replicate n PIOS_WDG_SENSORS
  ∧ length (omap delay_asked (calls_since w (at_cycle env w n 0))) = n
  ∧ (relative_delay env →
     refresh_tick env w (S k)
     = (refresh_tick env w k + ticks + Z.of_nat (between_refreshes env w k))%Z
     ∧ (refresh_tick env w k + ticks ≤ refresh_tick env w (S k))%Z
     ∧ ((0 < between_refreshes env w k)%nat →
        (refresh_tick env w k + ticks < refresh_tick env w (S k))%Z)).
Proof.
  intros ticks. subst ticks.
  destruct (refresh_is_ninth_call_of_cycle env w k n)
    as (Horder & Hninth & Hnothing & Hrefreshes & Hdelays).
  do 5 (split; [done|]).
  intros Hrel. rewrite (refresh_tick_next env w k Hrel).
  split; [done|]. split; lia.
Qed.
End refresh_times.

Section bench_watchdog.
#[local] Existing Instance bench.

(** On the busy bench the refreshes are 30 ticks apart, from tick 13 on. *)
Lemma busy_refresh_tick k :
  refresh_tick busy_env power_on k = (13 + 30 * Z.of_nat k)%Z.
Proof.
  induction k as [|k IH]; [by vm_compute|].
  rewrite refresh_tick_next, IH by (intros t n; reflexivity).
  unfold between_refreshes. cbn [seq map sum_list sum_list_with id].
  change (elapsed busy_env _) with 1%nat.
  change (20 `quot` portTICK_RATE_MS)%Z with 20%Z. lia.
Qed.

(** C9, counterexample.  With a 1 ms tick and one tick between calls the
    flag is refreshed at ticks 13, 43, 73, ...: 30 ticks apart.  However
    time is divided into periods of 20 ticks, some period that begins after
    the first refresh holds no refresh. *)
Lemma a_period_without_refresh :
  ¬ refreshed_in_every_period 20 busy_env power_on.
Proof.
  intros [origin Hperiod].
  pose proof (Z_div_mod_eq_full origin 10) as Horigin.
  pose proof (Z.mod_pos_bound origin 10 ltac:(lia)) as Hrest.
  set (b := (origin `div` 10)%Z) in *. set (a := (origin `mod` 10)%Z) in *.
  set (d := (if decide (a ≤ 3)%Z then 2 else 1)%Z).
  assert (Hd : (14 ≤ 10 * d + a ≤ 23)%Z) by (subst d; case_decide; lia).
  destruct (Hperiod (2 * (d - b) + 3 * Z.abs (d - b))%Z) as [k Hk].
  - rewrite busy_refresh_tick. lia.
  - rewrite busy_refresh_tick in Hk. lia.
Qed.

(** C9, witness: on the busy bench the delay is relative, the second
    refresh is made at tick 43 = 13 + 20 + 10. *)
Lemma watchdog_refreshed_once_per_cycle_witness :
  relative_delay busy_env
  ∧ (0 < between_refreshes busy_env power_on 0)%nat
  ∧ refresh_tick busy_env power_on 1 = (13 + 20 + 10)%Z
  ∧ (refresh_tick busy_env power_on 0 + 20 `quot` portTICK_RATE_MS
     < refresh_tick busy_env power_on 1)%Z.
Proof.
  assert (Hrel : relative_delay busy_env) by (intros t n; reflexivity).
  assert (Hwork : (0 < between_refreshes busy_env power_on 0)%nat) by (vm_compute; lia).
  split; [exact Hrel|]. split; [exact Hwork|].
  destruct (watchdog_refreshed_once_per_cycle busy_env power_on 0 0)
    as (_ & _ & _ & _ & _ & Htime).
  destruct (Htime Hrel) as (Hnext & _ & Hlater).
  split; [rewrite Hnext; by vm_compute | by apply Hlater].
Defined.
End bench_watchdog.
